(** * runAll.ts: the attempt scheduler and the per-file pipeline

    A shallow embedding of [src/runAll.ts].  Asynchronous code is written
    in a small monad over an explicit world: the world holds the shared
    log buffer, the process-wide current test, the armed timers and the
    trace of the calls made to the collaborators (build step, browser,
    hooks, reporters).  A computation ends in one of four ways: it
    returns, it throws, it ends the process ([process.exit]) or it waits
    on a promise nobody settles. *)

From Stdlib Require Import List String Ascii ZArith Bool Lia.
Import ListNotations.
Local Open Scope string_scope.
Local Open Scope list_scope.

Set Implicit Arguments.

(** ** Values that a [catch] clause can receive *)

(** [assert] and [assertUsage] of [utils] raise errors of their own kind;
    everything else is a plain [Error] or an arbitrary thrown value. *)
Inductive ErrorKind := PlainError | UsageError | InvariantError.

Inductive JsVal :=
| JsUndefined
| JsNull
| JsBool (b : bool)
| JsNum (z : Z)
| JsStr (s : string)
| JsErr (k : ErrorKind) (msg : string).

(** JavaScript truthiness, as used by [!!err], [if (err)] and [err || x]. *)
Definition truthy (v : JsVal) : bool :=
  match v with
  | JsUndefined | JsNull => false
  | JsBool b => b
  | JsNum z => negb (z =? 0)%Z
  | JsStr s => negb (s =? EmptyString)
  | JsErr _ _ => true
  end.

(** ** Strings: [endsWith] and [replace] with a string pattern *)

Definition endsWith (s suffix : string) : bool :=
  let n := String.length s in
  let m := String.length suffix in
  (m <=? n)%nat && (substring (n - m) m s =? suffix).

Fixpoint dropChars (n : nat) (s : string) : string :=
  match n, s with
  | O, _ => s
  | S n', String _ s' => dropChars n' s'
  | S _, EmptyString => EmptyString
  end.

(** [s.replace(pat, rep)] with a string pattern replaces the first
    occurrence only. *)
Fixpoint replace (pat rep s : string) : string :=
  if prefix pat s then rep ++ dropChars (String.length pat) s
  else match s with
       | EmptyString => EmptyString
       | String c s' => String c (replace pat rep s')
       end.

Fixpoint joinLines (l : list string) : string :=
  match l with
  | [] => EmptyString
  | [x] => x
  | x :: rest => x ++ String "010"%char (joinLines rest)
  end.

(** ** The shared log buffer *)

Inductive Severity := SevInfo | SevWarning | SevError.

Record LogEntry := mkLogEntry {
  logSource : string;
  logText : string;
  severity : Severity
}.

Definition LogBuffer := list LogEntry.

(** Modelled from the spec: [Logs.hasFailLogs] lives in [src/Logs.ts],
    which is not among the sources.  The spec gives its contract: true if
    any [error] entry exists, or, when [failOnWarning], any [warning]
    entry exists. *)
Definition isFailEntry (failOnWarning : bool) (e : LogEntry) : bool :=
  match severity e with
  | SevError => true
  | SevWarning => failOnWarning
  | SevInfo => false
  end.

Definition hasFailEntries (failOnWarning : bool) (l : LogBuffer) : bool :=
  existsb (isFailEntry failOnWarning) l.

(** ** What a test file declares *)

(** A hook is user code: it sees and changes the log buffer, and it may
    throw. *)
Definition Hook := LogBuffer -> LogBuffer * option JsVal.

Inductive Settlement := Fulfils | Rejects (e : JsVal).

(** What the value returned by a case body does, relative to the timer
    armed by [runTest]. *)
Inductive Awaited :=
| SettlesBeforeTimer (s : Settlement)
| SettlesAfterTimer (s : Settlement)
| NeverSettles.

Inductive CallResult :=
| ThrowsSync (e : JsVal)
| Returns (a : Awaited).

(** A case body: its effect on the log buffer until the caller of
    [runTest] resumes, and how the call ends. *)
Definition TestFn := LogBuffer -> LogBuffer * CallResult.

Record Test := mkTest { testDesc : string; testFn : TestFn }.

Record RunInfo := mkRunInfo {
  isFlaky : bool;
  testFunctionTimeout : Z;
  doNotFailOnWarning : bool
}.

Record SkipInfo := mkSkipInfo { reason : string }.

Inductive Page := ThePage.

Record TestInfo := mkTestInfo {
  testFile : string;
  skipped : option SkipInfo;
  runInfo : option RunInfo;
  tests : option (list Test);
  startServer : option Hook;
  terminateServer : option Hook;
  afterEach : option (bool -> Hook);
  page : option Page
}.

Definition freshTestInfo (f : string) : TestInfo :=
  mkTestInfo f None None None None None None None.

(** What importing the built module does: the declarations it makes
    ([run()], [test()], [skip()]) and whether the import throws. *)
Record Loaded := mkLoaded {
  declares : TestInfo -> TestInfo;
  importError : option JsVal
}.

(** ** Calls to collaborators, as recorded in the trace *)

Inductive Event :=
| EvBuildTs (testFile testFileJs : string)
| EvCleanBuild
| EvSetCurrentTest (f : option string)
| EvImport (testFileJs : string)
| EvNewPage
| EvPageClose
| EvStartServer
| EvTerminateServer
| EvLogProgress (msg : string)
| EvProgressDone (failed : bool)
| EvSetTimeout (ms : Z)
| EvCallTestFn
| EvAfterEach (failed : bool)
| EvLogFail (reason : string) (isFinalAttempt : bool)
| EvLogError (err : JsVal)
| EvLogErrorsAndWarnings
| EvFlushLogs
| EvLogPass
| EvLogWarn (reason : string)
| EvProcessExit (code : Z)
| EvLoadConfig
| EvGetBrowser
| EvBrowserClose.

Record World := mkWorld {
  logEntries : LogBuffer;
  currentTest : option TestInfo;
  armedTimers : list Z;
  trace : list Event
}.

Definition initialWorld : World := mkWorld [] None [] [].

(** ** The monad *)

Inductive Outcome (A : Type) :=
| Done (a : A) (w : World)
| Threw (e : JsVal) (w : World)
| Exited (code : Z) (w : World)
| Hangs (w : World).

Arguments Threw {A} e w.
Arguments Exited {A} code w.
Arguments Hangs {A} w.

Definition M (A : Type) := World -> Outcome A.

Definition finalWorld {A} (o : Outcome A) : World :=
  match o with
  | Done _ w | Threw _ w | Exited _ w | Hangs w => w
  end.

Definition ret {A} (a : A) : M A := fun w => Done a w.

Definition bind {A B} (m : M A) (k : A -> M B) : M B :=
  fun w =>
    match m w with
    | Done a w' => k a w'
    | Threw e w' => Threw e w'
    | Exited c w' => Exited c w'
    | Hangs w' => Hangs w'
    end.

Declare Scope js_scope.
Delimit Scope js_scope with js.
Notation "x <- m ;; k" := (bind m (fun x => k))
  (at level 61, m at next level, right associativity) : js_scope.
Notation "m ;; k" := (bind m (fun _ => k))
  (at level 61, right associativity) : js_scope.
Local Open Scope js_scope.

Definition throw {A} (e : JsVal) : M A := fun w => Threw e w.

(** [try { m } catch (err) { h err }] *)
Definition tryCatch {A} (m : M A) (h : JsVal -> M A) : M A :=
  fun w =>
    match m w with
    | Threw e w' => h e w'
    | o => o
    end.

(** [try { m } finally { f }], for an [f] that returns normally. *)
Definition tryFinally {A} (m : M A) (f : M unit) : M A :=
  fun w =>
    match m w with
    | Done a w' => bind f (fun _ => ret a) w'
    | Threw e w' => bind f (fun _ => throw e) w'
    | o => o
    end.

Definition emit (e : Event) : M unit :=
  fun w => Done tt (mkWorld (logEntries w) (currentTest w) (armedTimers w)
                            (trace w ++ [e])).

Definition getLogs : M LogBuffer := fun w => Done (logEntries w) w.

Definition setLogs (l : LogBuffer) : M unit :=
  fun w => Done tt (mkWorld l (currentTest w) (armedTimers w) (trace w)).

Definition setCurrent (t : option TestInfo) : M unit :=
  fun w => Done tt (mkWorld (logEntries w) t (armedTimers w) (trace w)).

Definition setTimers (l : list Z) : M unit :=
  fun w => Done tt (mkWorld (logEntries w) (currentTest w) l (trace w)).

(** [process.exit(code)] *)
Definition processExit {A} (code : Z) : M A :=
  fun w => Exited code (mkWorld (logEntries w) (currentTest w) (armedTimers w)
                                (trace w ++ [EvProcessExit code])).

(** ** [utils]: assertions *)

(** Modelled from the spec: [assert] and [assertUsage] live in [utils],
    which is not among the sources.  By the spec's error taxonomy a failed
    [assert] is an invariant violation and a failed [assertUsage] a usage
    error carrying its message; both are raised on the spot. *)
Definition assert (c : bool) : M unit :=
  if c then ret tt else throw (JsErr InvariantError "[Bug] assertion failed").

Definition assertUsage (c : bool) (msg : string) : M unit :=
  if c then ret tt else throw (JsErr UsageError msg).

(** [assert(x)] on a field that is an object or [undefined]. *)
Definition assertDefined {A} (x : option A) : M A :=
  match x with
  | Some a => ret a
  | None => throw (JsErr InvariantError "[Bug] assertion failed")
  end.

Definition isDefined {A} (x : option A) : bool :=
  match x with Some _ => true | None => false end.

(** ** [Logs] *)

Module Logs.

(** Modelled from the spec: [Logs.add] of [src/Logs.ts], which is not
    among the sources, appends an entry to the shared buffer.  The code
    calls it once, for the marker entry of a case, which the spec calls
    diagnostic: it is no failure. *)
Definition add (src txt : string) : M unit :=
  fun w => Done tt (mkWorld (logEntries w ++ [mkLogEntry src txt SevInfo])
                            (currentTest w) (armedTimers w) (trace w)).

(** Modelled from the spec: [Logs.hasFailLogs], see [hasFailEntries]. *)
Definition hasFailLogs (failOnWarning : bool) : M bool :=
  fun w => Done (hasFailEntries failOnWarning (logEntries w)) w.

(** Modelled from the spec: [Logs.clearLogs] is the [clear()] of the
    spec's FailureLog: it empties the buffer. *)
Definition clearLogs : M unit := setLogs [].

(** Modelled from the spec: [Logs.logErrorsAndWarnings] reports the
    failing entries of the buffer and leaves the buffer as it is. *)
Definition logErrorsAndWarnings : M unit := emit EvLogErrorsAndWarnings.

(** Modelled from the spec: [Logs.flushLogs] is the [drainForReport()] of
    the spec's FailureLog: it hands the entries over for the report and
    leaves the buffer empty. *)
Definition flushLogs : M unit := emit EvFlushLogs ;; setLogs [].

End Logs.

(** Calling a hook: the call is recorded, then the hook acts on the
    buffer and returns or throws. *)
Definition callHook (ev : Event) (h : Hook) : M unit :=
  emit ev ;;
  l <- getLogs ;;
  let '(l', thrown) := h l in
  setLogs l' ;;
  match thrown with
  | Some e => throw e
  | None => ret tt
  end.

(** ** The environment *)

(** The signals and collaborators the file reads but does not own:
    [isCI], [isWindows], [humanizeTime] ([utils]), [isParallelCI]
    ([parallel-ci]), [hasFail] ([logTestStatus]), the discovered files
    ([findTestFiles]) and what importing a built test file does.  A file
    may behave differently on each import, so the import is given the
    trace so far. *)
Record Env := mkEnv {
  isCI : bool;
  isParallelCI : bool;
  isWindows : bool;
  humanizeTime : Z -> string;
  hasFail : list Event -> bool;
  findTestFiles : list string;
  importModule : string -> list Event -> Loaded
}.

(** ** [runTest]: one case under a timeout *)

Inductive PromiseState := Pending | Fulfilled | Rejected (e : JsVal).

(** The promise created by [runTest] and the timer it arms. *)
Record Race := mkRace { promise : PromiseState; timerArmed : bool }.

Definition resolve (r : Race) : Race :=
  match promise r with
  | Pending => mkRace Fulfilled (timerArmed r)
  | _ => r
  end.

Definition reject (e : JsVal) (r : Race) : Race :=
  match promise r with
  | Pending => mkRace (Rejected e) (timerArmed r)
  | _ => r
  end.

Definition clearTimeout (r : Race) : Race := mkRace (promise r) false.

Definition timeoutError (human : string) : JsVal :=
  JsErr PlainError ("[test] Timeout after " ++ human).

(** The timer callback; a cleared timer never runs it. *)
Definition onTimer (human : string) (r : Race) : Race :=
  if timerArmed r then reject (timeoutError human) (mkRace (promise r) false)
  else r.

(** The async wrapper around [await ret]: resolve or reject, and
    [clearTimeout] in [finally]. *)
Definition onSettle (s : Settlement) (r : Race) : Race :=
  clearTimeout (match s with
                | Fulfils => resolve r
                | Rejects e => reject e r
                end).

Inductive RaceEvent := TimerElapses | BodySettles (s : Settlement).

Definition raceStep (human : string) (r : Race) (ev : RaceEvent) : Race :=
  match ev with
  | TimerElapses => onTimer human r
  | BodySettles s => onSettle s r
  end.

(** The order in which the event loop delivers the two events.  A timer
    that is still armed elapses eventually. *)
Definition schedule (a : Awaited) : list RaceEvent :=
  match a with
  | SettlesBeforeTimer s => [BodySettles s; TimerElapses]
  | SettlesAfterTimer s => [TimerElapses; BodySettles s]
  | NeverSettles => [TimerElapses]
  end.

Definition raceStart : Race := mkRace Pending true.

Definition runRace (human : string) (a : Awaited) : Race :=
  fold_left (raceStep human) (schedule a) raceStart.

(** What [await promise] gives the caller. *)
Definition awaitPromise (p : PromiseState) : M unit :=
  match p with
  | Fulfilled => ret tt
  | Rejected e => throw e
  | Pending => fun w => Hangs w
  end.

Section WithEnv.

Variable env : Env.

(** [runTest(testFn, testFunctionTimeout)].  The timer is armed before
    the body is called; a body that throws synchronously leaves
    [runTest] before the async wrapper, the only place that clears the
    timer, is set up. *)
Definition runTest (fn : TestFn) (timeoutMs : Z) : M unit :=
  timers <- (fun w => Done (armedTimers w) w) ;;
  emit (EvSetTimeout timeoutMs) ;;
  setTimers (timeoutMs :: timers) ;;
  emit EvCallTestFn ;;
  l <- getLogs ;;
  let '(l', res) := fn l in
  setLogs l' ;;
  match res with
  | ThrowsSync e => throw e
  | Returns a =>
      let r := runRace (humanizeTime env timeoutMs) a in
      setTimers (if timerArmed r then timeoutMs :: timers else timers) ;;
      awaitPromise (promise r)
  end.

(** ** [logFailure], [getErrorType] *)

Definition logFailure (err : JsVal) (reason : string) (isFinalAttempt : bool)
  : M unit :=
  emit (EvLogFail reason isFinalAttempt) ;;
  (if truthy err then emit (EvLogError err) else ret tt) ;;
  Logs.logErrorsAndWarnings ;;
  Logs.flushLogs.

Definition getErrorType (failOnWarning : bool) : string :=
  if negb failOnWarning then "error(s)" else "error(s)/warning(s)".

Definition quoted (s : string) : string :=
  String "034"%char (s ++ String "034"%char EmptyString).

(** The reasons handed to [logFailure]. *)
Definition threwReason (desc : string) : string :=
  "the test " ++ quoted desc ++ " threw an error".

Definition logDetectedReason (failOnWarning : bool) (desc : string) : string :=
  getErrorType failOnWarning ++ " occurred while running the test "
    ++ quoted desc.

Definition progressLine (desc : string) : string := "[test] " ++ desc.

Definition startReason : string :=
  "an error occurred while starting the server".

Definition terminationReason (failOnWarning : bool) : string :=
  getErrorType failOnWarning ++ " occurred during server termination".

(** ** [runTests]: the case loop *)

(** The body of the [for] loop.  [false] stands for the [return false]
    inside the loop, [true] for reaching the end of the body. *)
Definition runCase (ri : RunInfo) (after : bool -> Hook)
           (isFinalAttempt : bool) (c : Test) : M bool :=
  Logs.add "test()" (testDesc c) ;;
  emit (EvLogProgress (progressLine (testDesc c))) ;;
  err <- tryCatch
           (runTest (testFn c) (testFunctionTimeout ri) ;; ret JsUndefined)
           (fun err_ => ret err_) ;;
  emit (EvProgressDone (truthy err)) ;;
  callHook (EvAfterEach (truthy err)) (after (truthy err)) ;;
  let failOnWarning := negb (doNotFailOnWarning ri) in
  hasErrorLog <- Logs.hasFailLogs failOnWarning ;;
  let isFailure := truthy err || hasErrorLog in
  if isFailure then
    (if truthy err then
       logFailure err (threwReason (testDesc c)) isFinalAttempt
     else if hasErrorLog then
       logFailure JsNull (logDetectedReason failOnWarning (testDesc c))
                  isFinalAttempt
     else assert false) ;;
    ret false
  else
    Logs.clearLogs ;;
    ret true.

Fixpoint runTestsLoop (ri : RunInfo) (after : bool -> Hook)
         (isFinalAttempt : bool) (cases : list Test) : M bool :=
  match cases with
  | [] => ret true
  | c :: rest =>
      continue <- runCase ri after isFinalAttempt c ;;
      if continue : bool then runTestsLoop ri after isFinalAttempt rest
      else ret false
  end.

Definition runTests (testInfo : TestInfo) (isFinalAttempt : bool) : M bool :=
  ri <- assertDefined (runInfo testInfo) ;;
  after <- assertDefined (afterEach testInfo) ;;
  cases <- assertDefined (tests testInfo) ;;
  runTestsLoop ri after isFinalAttempt cases.

(** ** [assertSkipUsage] *)

Definition assertSkipUsage (testInfo : TestInfo) : M unit :=
  assert (isDefined (skipped testInfo)) ;;
  assertUsage (negb (isDefined (runInfo testInfo)))
              "You cannot call run() after calling skip()" ;;
  assertUsage (negb (isDefined (tests testInfo)))
              "You cannot call test() after calling skip()".

(** ** [getCurrentTest], [setCurrentTest] *)

(** Modelled from the spec: [getCurrentTest] and [setCurrentTest] live in
    [src/getCurrentTest.ts], which is not among the sources.  The spec has
    one process-wide current file, set when a file starts and emptied
    when it ends; reading it while it is empty is an invariant
    violation. *)
Definition getCurrentTest : M TestInfo :=
  fun w => assertDefined (currentTest w) w.

Definition setCurrentTest (f : option string) : M unit :=
  emit (EvSetCurrentTest f) ;;
  setCurrent (option_map freshTestInfo f).

(** [testInfo.page = page] writes into the current test. *)
Definition setPage (testInfo : TestInfo) (p : Page) : TestInfo :=
  mkTestInfo (testFile testInfo) (skipped testInfo) (runInfo testInfo)
             (tests testInfo) (startServer testInfo)
             (terminateServer testInfo) (afterEach testInfo) (Some p).

Definition logPass : M unit := emit EvLogPass.
Definition logWarn (s : string) : M unit := emit (EvLogWarn s).
Definition newPage : M Page := emit EvNewPage ;; ret ThePage.
Definition pageClose : M unit := emit EvPageClose.

(** ** [runServerAndTests] *)

Definition isFinalAttemptOf (isSecondAttempt : bool) (ri : RunInfo) : bool :=
  isSecondAttempt || negb (isFlaky ri).

Definition abortMaybe (isFinalAttempt : bool) : M unit :=
  if isFinalAttempt && isParallelCI env then processExit 1%Z else ret tt.

(** The [catch] clause around [startServer]; it returns [false]. *)
Definition startServerFailed (err : JsVal) (isFinalAttempt : bool) : M bool :=
  logFailure err startReason isFinalAttempt ;;
  abortMaybe isFinalAttempt ;;
  ret false.

(** [runServerAndTests] from [await testInfo.terminateServer()] to its
    end, [success] being what [runTests] returned. *)
Definition terminateAndReport (stop : Hook) (isFinalAttempt success : bool)
  : M bool :=
  callHook EvTerminateServer stop ;;
  pageClose ;;
  success <-
    (if success then
       let failOnWarning := true in
       hasLogs <- Logs.hasFailLogs failOnWarning ;;
       if hasLogs && negb (isWindows env) then
         logFailure JsNull (terminationReason failOnWarning) isFinalAttempt ;;
         ret false
       else ret true
     else ret false) ;;
  (if success : bool then logPass else abortMaybe isFinalAttempt) ;;
  Logs.clearLogs ;;
  ret success.

Definition runServerAndTests (isSecondAttempt : bool) : M bool :=
  testInfo <- getCurrentTest ;;
  match skipped testInfo with
  | Some s =>
      assertSkipUsage testInfo ;;
      logWarn (reason s) ;;
      ret true
  | None =>
      ri <- assertDefined (runInfo testInfo) ;;
      start <- assertDefined (startServer testInfo) ;;
      stop <- assertDefined (terminateServer testInfo) ;;
      let isFinalAttempt := isFinalAttemptOf isSecondAttempt ri in
      p <- newPage ;;
      let testInfo := setPage testInfo p in
      setCurrent (Some testInfo) ;;
      (* [Some b]: the catch clause returned [b] *)
      returned <- tryCatch
                    (callHook EvStartServer start ;; ret None)
                    (fun err =>
                       b <- startServerFailed err isFinalAttempt ;;
                       ret (Some b)) ;;
      match returned with
      | Some b => ret b
      | None =>
          success <- runTests testInfo isFinalAttempt ;;
          terminateAndReport stop isFinalAttempt success
      end
  end.

(** ** [buildAndTest] *)

Definition buildTs (testFile testFileJs : string) : M unit :=
  emit (EvBuildTs testFile testFileJs).

Definition cleanBuild : M unit := emit EvCleanBuild.

(** [await import(...)]: the module runs and fills in the current test. *)
Definition importFile (testFileJs : string) : M unit :=
  emit (EvImport testFileJs) ;;
  fun w =>
    let m := importModule env testFileJs (trace w) in
    let w' := mkWorld (logEntries w) (option_map (declares m) (currentTest w))
                      (armedTimers w) (trace w) in
    match importError m with
    | Some e => Threw e w'
    | None => Done tt w'
    end.

Definition buildAndTest (testFile : string) (isSecondAttempt : bool)
  : M bool :=
  assert (endsWith testFile ".ts") ;;
  let testFileJs := replace ".ts" ".mjs" testFile in
  assert (endsWith testFileJs ".mjs") ;;
  buildTs testFile testFileJs ;;
  setCurrentTest (Some testFile) ;;
  tryFinally (importFile testFileJs) cleanBuild ;;
  success <- runServerAndTests isSecondAttempt ;;
  setCurrentTest None ;;
  ret success.

(** ** [runTestFiles] *)

(** One [for] loop of [runTestFiles]: [failed] is the array being
    pushed to. *)
Fixpoint attemptEach (isSecondAttempt : bool) (testFiles failed : list string)
  : M (list string) :=
  match testFiles with
  | [] => ret failed
  | testFile :: rest =>
      success <- buildAndTest testFile isSecondAttempt ;;
      attemptEach isSecondAttempt rest
                  (if success : bool then failed else failed ++ [testFile])
  end.

Definition runTestFiles (testFiles : list string) : M (list string) :=
  failedFirstAttempt <- attemptEach false testFiles [] ;;
  if negb (isCI env) then ret failedFirstAttempt
  else
    failedSecondAttempt <- attemptEach true failedFirstAttempt [] ;;
    ret failedSecondAttempt.

(** ** [runAll] *)

Definition aggregateError (failedTestFiles : list string) : JsVal :=
  JsErr PlainError
    (joinLines
       ("Following test files failed, see all the logs printed above for more information."
          :: map (fun testFile => ("  " ++ testFile)%string) failedTestFiles)).

Definition runAll : M unit :=
  emit EvLoadConfig ;;
  let testFiles := findTestFiles env in
  emit EvGetBrowser ;;
  failedTestFiles <- runTestFiles testFiles ;;
  emit EvBrowserClose ;;
  let hasFailedTestFile := (0 <? List.length failedTestFiles)%nat in
  hasFailLog <- (fun w => Done (hasFail env (trace w)) w) ;;
  if hasFailedTestFile || hasFailLog then
    assert (hasFailedTestFile && hasFailLog) ;;
    assert (0 <? List.length failedTestFiles)%nat ;;
    throw (aggregateError failedTestFiles)
  else ret tt.

End WithEnv.

(** * Specification-level definitions *)

(** ** The scheduler as the specification words it

    One pass attempts every file of a sequence once, in order, and yields
    the outcomes; the files still failing are those whose outcome is
    [false], in their original order. *)
Fixpoint attemptInOrder (env : Env) (isSecondAttempt : bool)
         (files : list string) : M (list bool) :=
  match files with
  | [] => ret []
  | f :: rest =>
      ok <- buildAndTest env f isSecondAttempt ;;
      oks <- attemptInOrder env isSecondAttempt rest ;;
      ret (ok :: oks)
  end.

Fixpoint stillFailing (files : list string) (oks : list bool) : list string :=
  match files, oks with
  | f :: fs, ok :: oks' =>
      if ok then stillFailing fs oks' else f :: stillFailing fs oks'
  | _, _ => []
  end.

Definition twoPasses (env : Env) (files : list string) : M (list string) :=
  oks1 <- attemptInOrder env false files ;;
  let failed1 := stillFailing files oks1 in
  if isCI env then
    oks2 <- attemptInOrder env true failed1 ;;
    ret (stillFailing failed1 oks2)
  else ret failed1.

(** [buildAndTest] after the build step. *)
Definition loadAndRun (env : Env) (testFile testFileJs : string) (isSecondAttempt : bool)
  : M bool :=
  setCurrentTest (Some testFile) ;;
  tryFinally (importFile env testFileJs) cleanBuild ;;
  success <- runServerAndTests env isSecondAttempt ;;
  setCurrentTest None ;;
  ret success.

(** ** One case, read off the loop body *)

Definition caseMarker (c : Test) : LogEntry :=
  mkLogEntry "test()" (testDesc c) SevInfo.

(** What the [catch] clause of the loop body leaves in [err]: the value
    [runTest] threw or rejected with, [undefined] when it resolved. *)
Definition caught (env : Env) (ms : Z) (res : CallResult) : JsVal :=
  match res with
  | ThrowsSync e => e
  | Returns a =>
      match promise (runRace (humanizeTime env ms) a) with
      | Rejected e => e
      | _ => JsUndefined
      end
  end.

(** Whether the case threw: its call raised, or the promise of [runTest]
    was rejected, by the body or by the timer. *)
Definition caseThrew (env : Env) (ms : Z) (res : CallResult) : bool :=
  match res with
  | ThrowsSync _ => true
  | Returns a =>
      match promise (runRace (humanizeTime env ms) a) with
      | Rejected _ => true
      | _ => false
      end
  end.

(** The timers still armed when [runTest] hands control back. *)
Definition timersAfter (ms : Z) (res : CallResult) (timers : list Z) : list Z :=
  match res with
  | ThrowsSync _ => ms :: timers
  | Returns _ => timers
  end.

(** The calls one iteration makes up to the after-each hook. *)
Definition caseEvents (ms : Z) (c : Test) (failed : bool) : list Event :=
  [EvLogProgress (progressLine (testDesc c)); EvSetTimeout ms; EvCallTestFn;
   EvProgressDone failed; EvAfterEach failed].

(** Thrown values as the code sees them: [err] is truthy exactly when
    the case threw, provided what it threw is itself truthy. *)
Definition throwsTruthy (res : CallResult) : bool :=
  match res with
  | ThrowsSync e => truthy e
  | Returns (SettlesBeforeTimer (Rejects e)) => truthy e
  | Returns _ => true
  end.

(** ** How a file fails *)

Definition withTrace (w : World) (evs : list Event) : World :=
  mkWorld (logEntries w) (currentTest w) (armedTimers w) (trace w ++ evs).

Definition withLogs (w : World) (l : LogBuffer) : World :=
  mkWorld l (currentTest w) (armedTimers w) (trace w).

(** The calls [logFailure] makes. *)
Definition logFailureEvents (err : JsVal) (why : string) (final : bool)
  : list Event :=
  EvLogFail why final
    :: (if truthy err then [EvLogError err] else [])
    ++ [EvLogErrorsAndWarnings; EvFlushLogs].

(** A failure reached in world [w]: in parallel CI on a final attempt the
    process ends there with status 1; otherwise the file returns [false],
    from a world [w'] that may differ from [w] in its log only. *)
Definition failedOutcome (env : Env) (final : bool) (w w' : World)
  : Outcome bool :=
  if final && isParallelCI env
  then Exited 1%Z (withTrace w [EvProcessExit 1%Z])
  else Done false w'.

(** The file is marked failed. *)
Definition FileFailed (o : Outcome bool) : Prop :=
  exists w', o = Done false w' \/ o = Exited 1%Z w'.

Definition isWarning (e : LogEntry) : bool :=
  match severity e with SevWarning => true | _ => false end.


(** The checkpoint invariant as the specification states it, for the
    files: an attempt that starts with an empty log ends with an empty
    log, whatever its outcome. *)
Definition clearedAtFileEnd (env : Env) (f : string) (isSecondAttempt : bool)
           (w : World) : Prop :=
  logEntries w = [] ->
  forall b w',
    buildAndTest env f isSecondAttempt w = Done b w' -> logEntries w' = [].

(** [buildAndTest] up to the call of [runServerAndTests]: the build and
    the import. *)
Definition prepare (env : Env) (testFile : string) : M unit :=
  assert (endsWith testFile ".ts") ;;
  let testFileJs := replace ".ts" ".mjs" testFile in
  assert (endsWith testFileJs ".mjs") ;;
  buildTs testFile testFileJs ;;
  setCurrentTest (Some testFile) ;;
  tryFinally (importFile env testFileJs) cleanBuild.

(** ** Reading the trace *)

(** The files handed to the build step, in the order of the calls. *)
Fixpoint builtFiles (tr : list Event) : list string :=
  match tr with
  | [] => []
  | EvBuildTs f _ :: rest => f :: builtFiles rest
  | _ :: rest => builtFiles rest
  end.

Definition isBuild (e : Event) : bool :=
  match e with EvBuildTs _ _ => true | _ => false end.

Definition notBuild (e : Event) : bool := negb (isBuild e).

Definition isCaseRun (e : Event) : bool :=
  match e with EvCallTestFn => true | _ => false end.

Definition isLogFail (e : Event) : bool :=
  match e with EvLogFail _ _ => true | _ => false end.

Definition isStop (e : Event) : bool :=
  match e with EvTerminateServer => true | _ => false end.

Definition isPageClose (e : Event) : bool :=
  match e with EvPageClose => true | _ => false end.

(** The descriptions of the cases announced by [logProgress], in order. *)
Fixpoint progressLines (tr : list Event) : list string :=
  match tr with
  | [] => []
  | EvLogProgress msg :: rest => msg :: progressLines rest
  | _ :: rest => progressLines rest
  end.

(** A computation only appends to the trace, and what it appends
    satisfies [Q]. *)
Definition Emits (Q : Event -> bool) {A} (m : M A) : Prop :=
  forall w, exists evs,
    trace (finalWorld (m w)) = trace w ++ evs /\ forallb Q evs = true.

(** ** Errors of the test runner itself *)

Definition isHarnessError (e : JsVal) : bool :=
  match e with
  | JsErr UsageError _ | JsErr InvariantError _ => true
  | _ => false
  end.

(** How a computation may end when no failure of a test file escapes it:
    it returns, it ends the process with status 1, or it raises a usage or
    invariant error. *)
Definition Contained {A} (o : Outcome A) : Prop :=
  match o with
  | Done _ _ => True
  | Exited c _ => c = 1%Z
  | Threw e _ => isHarnessError e = true
  | Hangs _ => False
  end.

(** How an attempt may end when every failure of the file is accounted
    for: it returns, with a failure logged since [w] when it returns
    [false]; or the process ends with status 1; or a usage or invariant
    error is raised. *)
Definition Accounted (w : World) (o : Outcome bool) : Prop :=
  match o with
  | Done b w' =>
      exists evs, trace w' = trace w ++ evs /\
                  (b = false -> existsb isLogFail evs = true)
  | Threw e _ => isHarnessError e = true
  | Exited c _ => c = 1%Z
  | Hangs _ => False
  end.

(** A failure converted as the specification has it: the file is marked
    failed, and a failure with the reason [why] and the finality flag
    [final] was logged after [w]. *)
Definition FailedWith (w : World) (why : string) (final : bool)
           (o : Outcome bool) : Prop :=
  FileFailed o /\
  exists pre post,
    trace (finalWorld o) = trace w ++ pre ++ EvLogFail why final :: post.

(** The hooks outside the failure taxonomy return normally. *)
Definition quietHooks (t : TestInfo) : Prop :=
  (forall after, afterEach t = Some after ->
     forall failed l, snd (after failed l) = None) /\
  (forall stop, terminateServer t = Some stop ->
     forall l, snd (stop l) = None).

Definition wellBehaved (env : Env) : Prop :=
  forall f tr,
    importError (importModule env f tr) = None /\
    forall testFile,
      quietHooks (declares (importModule env f tr) (freshTestInfo testFile)).

(** The same environment outside parallel CI. *)
Definition withoutParallelCI (env : Env) : Env :=
  mkEnv (isCI env) false (isWindows env) (humanizeTime env) (hasFail env)
        (findTestFiles env) (importModule env).

(** The world in which [startServer] is called. *)
Definition pageOpened (t : TestInfo) (w : World) : World :=
  mkWorld (logEntries w) (Some (setPage t ThePage)) (armedTimers w)
          (trace w ++ [EvNewPage]).

(** A test file that called [run()]. *)
Definition declaredRun (t : TestInfo) (ri : RunInfo) (start stop : Hook) : Prop :=
  skipped t = None /\ runInfo t = Some ri /\
  startServer t = Some start /\ terminateServer t = Some stop.

(** The checkpoint invariant as the specification states it, for the
    cases: in a file that starts with an empty log, the case loop starts
    with an empty log. *)
Definition emptyAtCaseStart (w : World) : Prop :=
  logEntries w = [] ->
  forall t ri start stop w1,
    currentTest w = Some t ->
    declaredRun t ri start stop ->
    callHook EvStartServer start (pageOpened t w) = Done tt w1 ->
    logEntries w1 = [].

(** ** Further reading devices *)

(** The world [w] with another current test. *)
Definition withCurrent (w : World) (t : option TestInfo) : World :=
  mkWorld (logEntries w) t (armedTimers w) (trace w).

(** What [buildAndTest] has called when the import is over. *)
Definition importEvents (f : string) : list Event :=
  let js := replace ".ts" ".mjs" f in
  [EvBuildTs f js; EvSetCurrentTest (Some f); EvImport js; EvCleanBuild].

(** The trace at the moment the module of [f] is evaluated. *)
Definition traceAtImport (f : string) (w : World) : list Event :=
  let js := replace ".ts" ".mjs" f in
  trace w ++ [EvBuildTs f js; EvSetCurrentTest (Some f); EvImport js].

(** The body of a case always hands a value back to [runTest]: its call
    never throws. *)
Definition returnsAlways (c : Test) : Prop :=
  forall l, exists l' a, testFn c l = (l', Returns a).

(** A logged failure carries the finality flag [final]; other events
    carry none. *)
Definition carriesFlag (final : bool) (e : Event) : bool :=
  match e with
  | EvLogFail _ flag => Bool.eqb flag final
  | _ => true
  end.

(** Every failure logged in [evs] carries the finality flag [final]. *)
Definition loggedAs (final : bool) (evs : list Event) : bool :=
  forallb (carriesFlag final) evs.

(** The times [f] was handed to the build step. *)
Definition timesBuilt (f : string) (tr : list Event) : nat :=
  count_occ string_dec (builtFiles tr) f.

(** The extension is the only place where [.ts] occurs in
    [base ++ ".ts"]. *)
Definition onlyFinalTs (base : string) : Prop :=
  forall a b, (base ++ ".ts" = a ++ ".ts" ++ b)%string -> b = EmptyString.

(** The reason [runTests] gives for the failure of a case, by what the
    [catch] clause held. *)
Definition caseFailureReason (ri : RunInfo) (c : Test) (err : JsVal) : string :=
  if truthy err then threwReason (testDesc c)
  else logDetectedReason (negb (doNotFailOnWarning ri)) (testDesc c).

(** The awaited value does not settle before the timer elapses. *)
Definition timesOut (a : Awaited) : bool :=
  match a with
  | SettlesBeforeTimer _ => false
  | SettlesAfterTimer _ | NeverSettles => true
  end.

(** The calls the case loop makes: announcing a case, arming its timer,
    calling its body, closing the progress line, the after-each hook, and
    the reporters of [logFailure]. *)
Definition caseLoopEvent (e : Event) : bool :=
  match e with
  | EvLogProgress _ | EvProgressDone _ | EvSetTimeout _ | EvCallTestFn
  | EvAfterEach _ | EvLogFail _ _ | EvLogError _ | EvLogErrorsAndWarnings
  | EvFlushLogs => true
  | _ => false
  end.

Definition isLogPass (e : Event) : bool :=
  match e with EvLogPass => true | _ => false end.

(** The times [logPass] was called. *)
Definition timesPassLogged (evs : list Event) : nat :=
  List.length (filter isLogPass evs).

(** * Sample test files *)

Module Sample.

Definition quietHook : Hook := fun l => (l, None).

Definition quietAfter : bool -> Hook := fun _ => quietHook.

Definition loggingHook (e : LogEntry) : Hook := fun l => (l ++ [e], None).

Definition crashingHook (e : LogEntry) (err : JsVal) : Hook :=
  fun l => (l ++ [e], Some err).

Definition bootNotice : LogEntry := mkLogEntry "stdout" "Server running" SevInfo.

Definition bootError : LogEntry := mkLogEntry "stderr" "EADDRINUSE" SevError.

Definition deprecation : LogEntry :=
  mkLogEntry "stderr" "DeprecationWarning" SevWarning.

Definition boom : JsVal := JsErr PlainError "boom".

Definition passingCase (d : string) : Test :=
  mkTest d (fun l => (l, Returns (SettlesBeforeTimer Fulfils))).

Definition throwingCase (d : string) (e : JsVal) : Test :=
  mkTest d (fun l => (l, ThrowsSync e)).

Definition rejectingCase (d : string) (e : JsVal) : Test :=
  mkTest d (fun l => (l, Returns (SettlesBeforeTimer (Rejects e)))).

Definition hangingCase (d : string) : Test :=
  mkTest d (fun l => (l, Returns NeverSettles)).

Definition strict : RunInfo := mkRunInfo false 5000 false.

Definition flaky : RunInfo := mkRunInfo true 5000 false.

Definition lenient : RunInfo := mkRunInfo false 5000 true.

(** [run()] and [test()] as they fill in the current test. *)
Definition declareRun (ri : RunInfo) (start stop : Hook) (after : bool -> Hook)
           (cases : list Test) (t : TestInfo) : TestInfo :=
  mkTestInfo (testFile t) (skipped t) (Some ri) (Some cases) (Some start)
             (Some stop) (Some after) (page t).

(** [skip()] *)
Definition declareSkip (why : string) (t : TestInfo) : TestInfo :=
  mkTestInfo (testFile t) (Some (mkSkipInfo why)) (runInfo t) (tests t)
             (startServer t) (terminateServer t) (afterEach t) (page t).

Fixpoint timesImported (js : string) (tr : list Event) : nat :=
  match tr with
  | [] => 0
  | EvImport js' :: rest =>
      (if js' =? js then 1 else 0) + timesImported js rest
  | _ :: rest => timesImported js rest
  end.

(** A small suite: a passing file, a file that fails the first time it
    is loaded and passes afterwards, a file whose server does not start,
    a skipped file, and a file whose only case throws. *)
Definition modules (js : string) (tr : list Event) : Loaded :=
  if js =? "pass.mjs" then
    mkLoaded (declareRun strict quietHook quietHook quietAfter
                         [passingCase "one"; passingCase "two"]) None
  else if js =? "flaky.mjs" then
    mkLoaded (declareRun flaky quietHook quietHook quietAfter
                [if (timesImported js tr <=? 1)%nat
                 then throwingCase "sometimes" boom
                 else passingCase "sometimes"]) None
  else if js =? "nostart.mjs" then
    mkLoaded (declareRun strict (crashingHook bootError boom) quietHook
                         quietAfter [passingCase "one"]) None
  else if js =? "skip.mjs" then
    mkLoaded (declareSkip "not on this platform") None
  else
    mkLoaded (declareRun strict quietHook quietHook quietAfter
                         [passingCase "one"; throwingCase "two" boom;
                          passingCase "three"]) None.

Definition env (ci parallel : bool) : Env :=
  mkEnv ci parallel false (fun _ => "5 seconds") (existsb isLogFail)
        ["pass.ts"; "flaky.ts"] modules.

(** A world in which [t] is the current test. *)
Definition during (t : TestInfo) : World := mkWorld [] (Some t) [] [].

Definition fileOf (declare : TestInfo -> TestInfo) : TestInfo :=
  declare (freshTestInfo "sample.ts").

(** All cases pass, the stop hook leaves an error in the log. *)
Definition noisyStop : TestInfo :=
  fileOf (declareRun strict quietHook (loggingHook bootError) quietAfter
                     [passingCase "one"]).

(** Warnings are tolerated during the cases; the stop hook leaves one. *)
Definition warnOnStop : TestInfo :=
  fileOf (declareRun lenient quietHook (loggingHook deprecation) quietAfter
                     [passingCase "one"]).

Definition throwsThenWarns : TestInfo :=
  fileOf (declareRun lenient quietHook (loggingHook deprecation) quietAfter
                     [throwingCase "one" boom; passingCase "two"]).

(** The server does not start. *)
Definition noStart : TestInfo :=
  fileOf (declareRun strict (crashingHook bootError boom) quietHook quietAfter
                     [passingCase "one"]).

(** The server starts and says so with a warning. *)
Definition chattyStart : TestInfo :=
  fileOf (declareRun strict (loggingHook deprecation) quietHook quietAfter
                     [passingCase "one"]).

Definition allPass : TestInfo :=
  fileOf (declareRun strict quietHook quietHook quietAfter
                     [passingCase "one"; passingCase "two"]).

(** The world in which the case loop of [t] starts, for a start hook
    that returns. *)
Definition started (start : Hook) (t : TestInfo) : World :=
  finalWorld (callHook EvStartServer start (pageOpened t (during t))).

(** A suite one of whose modules throws while it is imported. *)
Definition modulesWithBroken (js : string) (tr : list Event) : Loaded :=
  if js =? "broken.mjs" then mkLoaded (fun t => t) (Some boom)
  else modules js tr.

Definition brokenEnv : Env :=
  mkEnv false false false (fun _ => "5 seconds") (existsb isLogFail)
        ["broken.ts"; "pass.ts"] modulesWithBroken.

(** [run()] without any [test()]. *)
Definition declareRunOnly (ri : RunInfo) (start stop : Hook)
           (after : bool -> Hook) (t : TestInfo) : TestInfo :=
  mkTestInfo (testFile t) (skipped t) (Some ri) (tests t) (Some start)
             (Some stop) (Some after) (page t).

Definition runOnly : TestInfo :=
  fileOf (declareRunOnly strict quietHook quietHook quietAfter).

Definition crashingAfter : bool -> Hook :=
  fun _ => crashingHook bootError boom.

(** The after-each hook throws after the second case. *)
Definition afterCrash : TestInfo :=
  fileOf (declareRun strict quietHook quietHook
            (fun failed l =>
               if (2 <=? List.length l)%nat then crashingAfter failed l
               else quietHook l)
            [passingCase "one"; mkTest "two" (fun l => (l ++ [bootNotice],
                                                      Returns (SettlesBeforeTimer Fulfils)));
             passingCase "three"]).

(** The stop hook throws. *)
Definition stopCrash : TestInfo :=
  fileOf (declareRun strict quietHook (crashingHook bootError boom) quietAfter
                     [passingCase "one"]).

(** No case at all, warnings tolerated, a warning at server start. *)
Definition noCases : TestInfo :=
  fileOf (declareRun lenient (loggingHook deprecation) quietHook quietAfter []).

(** The second of three cases throws an error. *)
Definition throwsSecond : TestInfo :=
  fileOf (declareRun strict quietHook quietHook quietAfter
                     [passingCase "one"; throwingCase "two" boom;
                      passingCase "three"]).

(** The only case throws [undefined]. *)
Definition silentThrow : TestInfo :=
  fileOf (declareRun strict quietHook quietHook quietAfter
                     [throwingCase "one" JsUndefined]).

End Sample.

(** * Properties *)

(** ** The timeout race *)

Lemma reject_settled e r : promise r <> Pending -> reject e r = r.
Proof. unfold reject. destruct (promise r); congruence. Qed.

Lemma resolve_settled r : promise r <> Pending -> resolve r = r.
Proof. unfold resolve. destruct (promise r); congruence. Qed.

(** A promise settles once: whatever arrives later leaves it as it is. *)
Lemma raceStep_settled human r ev :
  promise r <> Pending -> promise (raceStep human r ev) = promise r.
Proof.
  intros H. destruct ev as [|s]; simpl.
  - unfold onTimer. destruct (timerArmed r); [|reflexivity].
    rewrite reject_settled; simpl; auto.
  - unfold onSettle, clearTimeout. simpl.
    destruct s; [rewrite resolve_settled | rewrite reject_settled]; auto.
Qed.

(** The caller sees: the body's own settlement when it comes first, the
    timeout error otherwise. *)
Lemma runRace_promise human a :
  promise (runRace human a) =
  match a with
  | SettlesBeforeTimer Fulfils => Fulfilled
  | SettlesBeforeTimer (Rejects e) => Rejected e
  | SettlesAfterTimer _ | NeverSettles => Rejected (timeoutError human)
  end.
Proof. destruct a as [[|e]|[|e]|]; reflexivity. Qed.

Lemma runRace_disarmed human a : timerArmed (runRace human a) = false.
Proof. destruct a as [[|e]|[|e]|]; reflexivity. Qed.

(** A body whose call returns: [runTest] settles, once, and by then the
    timer is no longer armed. *)
Lemma runTest_returns env fn ms w l' a :
  fn (logEntries w) = (l', Returns a) ->
  runTest env fn ms w =
  awaitPromise (promise (runRace (humanizeTime env ms) a))
    (mkWorld l' (currentTest w) (armedTimers w)
             (trace w ++ [EvSetTimeout ms; EvCallTestFn])).
Proof.
  intros H. unfold runTest, bind, emit, setTimers, getLogs, setLogs. simpl.
  rewrite H. simpl. rewrite runRace_disarmed. simpl.
  rewrite <- app_assoc. reflexivity.
Qed.

Lemma runTest_throws_sync env fn ms w l' e :
  fn (logEntries w) = (l', ThrowsSync e) ->
  runTest env fn ms w =
  Threw e (mkWorld l' (currentTest w) (ms :: armedTimers w)
                   (trace w ++ [EvSetTimeout ms; EvCallTestFn])).
Proof.
  intros H. unfold runTest, bind, emit, setTimers, getLogs, setLogs. simpl.
  rewrite H. simpl. rewrite <- app_assoc. reflexivity.
Qed.

Lemma runTest_never_hangs env fn ms w w' : runTest env fn ms w <> Hangs w'.
Proof.
  destruct (fn (logEntries w)) as [l' [e|a]] eqn:H.
  - rewrite (runTest_throws_sync env fn ms w H). discriminate.
  - rewrite (runTest_returns env fn ms w H), runRace_promise.
    destruct a as [[|e]|[|e]|]; discriminate.
Qed.

(** ** What a computation appends to the trace *)

Section EmitsRules.

Variable Q : Event -> bool.

Lemma Emits_ret A (a : A) : Emits Q (ret a).
Proof. intros w. exists []. simpl. rewrite app_nil_r. auto. Qed.

Lemma Emits_throw A e : Emits Q (@throw A e).
Proof. intros w. exists []. simpl. rewrite app_nil_r. auto. Qed.

Lemma Emits_read A (f : World -> A) : Emits Q (fun w => Done (f w) w).
Proof. intros w. exists []. simpl. rewrite app_nil_r. auto. Qed.

Lemma Emits_emit e : Q e = true -> Emits Q (emit e).
Proof. intros H w. exists [e]. simpl. rewrite H. auto. Qed.

Lemma Emits_processExit A c :
  Q (EvProcessExit c) = true -> Emits Q (@processExit A c).
Proof. intros H w. exists [EvProcessExit c]. simpl. rewrite H. auto. Qed.

Lemma Emits_setLogs l : Emits Q (setLogs l).
Proof. intros w. exists []. simpl. rewrite app_nil_r. auto. Qed.

Lemma Emits_setCurrent t : Emits Q (setCurrent t).
Proof. intros w. exists []. simpl. rewrite app_nil_r. auto. Qed.

Lemma Emits_setTimers l : Emits Q (setTimers l).
Proof. intros w. exists []. simpl. rewrite app_nil_r. auto. Qed.

Lemma Emits_add src txt : Emits Q (Logs.add src txt).
Proof. intros w. exists []. simpl. rewrite app_nil_r. auto. Qed.

Lemma Emits_awaitPromise p : Emits Q (awaitPromise p).
Proof. intros w. exists []. destruct p; simpl; rewrite app_nil_r; auto. Qed.

Lemma Emits_getCurrentTest : Emits Q getCurrentTest.
Proof.
  intros w. exists []. unfold getCurrentTest.
  destruct (currentTest w); simpl; rewrite app_nil_r; auto.
Qed.

Lemma Emits_bind A B (m : M A) (k : A -> M B) :
  Emits Q m -> (forall a, Emits Q (k a)) -> Emits Q (bind m k).
Proof.
  intros Hm Hk w. unfold bind.
  destruct (Hm w) as [e1 [H1 F1]].
  destruct (m w) as [a w1|e w1|c w1|w1]; simpl in *; try (exists e1; auto; fail).
  destruct (Hk a w1) as [e2 [H2 F2]].
  exists (e1 ++ e2). rewrite H2, H1, app_assoc, forallb_app, F1, F2. auto.
Qed.

Lemma Emits_tryCatch A (m : M A) (h : JsVal -> M A) :
  Emits Q m -> (forall e, Emits Q (h e)) -> Emits Q (tryCatch m h).
Proof.
  intros Hm Hh w. unfold tryCatch.
  destruct (Hm w) as [e1 [H1 F1]].
  destruct (m w) as [a w1|e w1|c w1|w1]; simpl in *; try (exists e1; auto; fail).
  destruct (Hh e w1) as [e2 [H2 F2]].
  exists (e1 ++ e2). rewrite H2, H1, app_assoc, forallb_app, F1, F2. auto.
Qed.

Lemma Emits_tryFinally A (m : M A) (f : M unit) :
  Emits Q m -> Emits Q f -> Emits Q (tryFinally m f).
Proof.
  intros Hm Hf w. unfold tryFinally.
  destruct (Hm w) as [e1 [H1 F1]].
  destruct (m w) as [a w1|e w1|c w1|w1]; simpl in *; try (exists e1; auto; fail).
  - assert (Hb : Emits Q (bind f (fun _ => ret a)))
      by (apply Emits_bind; [exact Hf | intros; apply Emits_ret]).
    destruct (Hb w1) as [e2 [H2 F2]].
    exists (e1 ++ e2). rewrite H2, H1, app_assoc, forallb_app, F1, F2. auto.
  - assert (Hb : Emits Q (bind f (fun _ => @throw A e)))
      by (apply Emits_bind; [exact Hf | intros; apply Emits_throw]).
    destruct (Hb w1) as [e2 [H2 F2]].
    exists (e1 ++ e2). rewrite H2, H1, app_assoc, forallb_app, F1, F2. auto.
Qed.

End EmitsRules.

Create HintDb emits.

(** Breaks a computation down along its binds and branches, using what is
    already known of the functions it calls; what is left are the events
    it emits. *)
Ltac emits_step :=
  first
    [ solve [ auto with emits nocore ]
    | apply Emits_ret | apply Emits_throw | apply Emits_read
    | apply Emits_setLogs | apply Emits_setCurrent | apply Emits_setTimers
    | apply Emits_add | apply Emits_awaitPromise | apply Emits_getCurrentTest
    | apply Emits_emit | apply Emits_processExit
    | apply Emits_bind; [ | intros ? ]
    | apply Emits_tryCatch; [ | intros ? ]
    | apply Emits_tryFinally
    | match goal with
      | |- Emits _ (match ?x with _ => _ end) => destruct x
      end ].

Ltac emits := repeat emits_step; try reflexivity; auto.

Lemma Emits_assert (Q : Event -> bool) c : Emits Q (assert c).
Proof. unfold assert. emits. Qed.

Lemma Emits_assertUsage (Q : Event -> bool) c msg : Emits Q (assertUsage c msg).
Proof. unfold assertUsage. emits. Qed.

Lemma Emits_assertDefined (Q : Event -> bool) A (x : option A) :
  Emits Q (assertDefined x).
Proof. unfold assertDefined. emits. Qed.

#[local] Hint Resolve Emits_assert Emits_assertUsage Emits_assertDefined : emits.

Lemma Emits_callHook ev h : notBuild ev = true -> Emits notBuild (callHook ev h).
Proof. intros H. unfold callHook, getLogs. emits. Qed.

Lemma Emits_runTest env fn ms : Emits notBuild (runTest env fn ms).
Proof. unfold runTest, getLogs. emits. Qed.

Lemma Emits_logFailure err why final : Emits notBuild (logFailure err why final).
Proof. unfold logFailure, Logs.logErrorsAndWarnings, Logs.flushLogs. emits. Qed.

Lemma Emits_abortMaybe env final : Emits notBuild (abortMaybe env final).
Proof. unfold abortMaybe. emits. Qed.

#[local] Hint Resolve Emits_runTest Emits_logFailure Emits_abortMaybe : emits.
#[local] Hint Extern 1 (Emits notBuild (callHook _ _)) =>
  (apply Emits_callHook; reflexivity) : emits.

Lemma Emits_runCase env ri after final c :
  Emits notBuild (runCase env ri after final c).
Proof. unfold runCase, Logs.hasFailLogs, Logs.clearLogs. emits. Qed.

#[local] Hint Resolve Emits_runCase : emits.

Lemma Emits_runTestsLoop env ri after final cases :
  Emits notBuild (runTestsLoop env ri after final cases).
Proof. induction cases as [|c rest IH]; cbn [runTestsLoop]; emits. Qed.

#[local] Hint Resolve Emits_runTestsLoop : emits.

Lemma Emits_runTests env t final : Emits notBuild (runTests env t final).
Proof. unfold runTests. emits. Qed.

Lemma Emits_terminateAndReport env stop final ok :
  Emits notBuild (terminateAndReport env stop final ok).
Proof.
  unfold terminateAndReport, pageClose, Logs.hasFailLogs, Logs.clearLogs, logPass.
  emits.
Qed.

#[local] Hint Resolve Emits_runTests Emits_terminateAndReport : emits.

Lemma Emits_runServerAndTests env second :
  Emits notBuild (runServerAndTests env second).
Proof.
  unfold runServerAndTests, assertSkipUsage, logWarn, newPage, startServerFailed.
  emits.
Qed.

#[local] Hint Resolve Emits_runServerAndTests : emits.

(** ** The attempt scheduler *)

Lemma builtFiles_app a b : builtFiles (a ++ b) = builtFiles a ++ builtFiles b.
Proof.
  induction a as [|e a IH]; simpl; [reflexivity|].
  destruct e; simpl; rewrite ?IH; reflexivity.
Qed.

Lemma builtFiles_quiet evs :
  forallb notBuild evs = true -> builtFiles evs = [].
Proof.
  induction evs as [|e evs IH]; simpl; [reflexivity|].
  intros H. apply andb_prop in H. destruct H as [He Hr].
  destruct e; simpl in *; try discriminate; auto.
Qed.

Section Scheduler.

Variable env : Env.

Lemma buildAndTest_unfold f second w :
  buildAndTest env f second w =
  let js := replace ".ts" ".mjs" f in
  if endsWith f ".ts" && endsWith js ".mjs" then
    loadAndRun env f js second
      (mkWorld (logEntries w) (currentTest w) (armedTimers w)
               (trace w ++ [EvBuildTs f js]))
  else Threw (JsErr InvariantError "[Bug] assertion failed") w.
Proof.
  unfold buildAndTest, loadAndRun, assert, buildTs. cbv zeta.
  destruct (endsWith f ".ts"); [|reflexivity].
  destruct (endsWith (replace ".ts" ".mjs" f) ".mjs"); reflexivity.
Qed.

Lemma Emits_loadAndRun f js second :
  Emits notBuild (loadAndRun env f js second).
Proof.
  unfold loadAndRun, setCurrentTest, importFile, cleanBuild.
  emits.
  intros w. exists []. simpl.
  destruct (importError _); simpl; rewrite app_nil_r; auto.
Qed.

(** Each attempt that returns has called the build step once, for its
    own file. *)
Lemma buildAndTest_builds f second w ok w' :
  buildAndTest env f second w = Done ok w' ->
  builtFiles (trace w') = builtFiles (trace w) ++ [f].
Proof.
  rewrite buildAndTest_unfold. cbv zeta.
  destruct (_ && _); [|discriminate].
  intros H.
  destruct (Emits_loadAndRun f (replace ".ts" ".mjs" f) second
              (mkWorld (logEntries w) (currentTest w) (armedTimers w)
                       (trace w ++ [EvBuildTs f (replace ".ts" ".mjs" f)])))
    as [evs [Ht Hq]].
  rewrite H in Ht. simpl in Ht. rewrite Ht.
  rewrite !builtFiles_app, (builtFiles_quiet _ Hq). simpl.
  rewrite app_nil_r. reflexivity.
Qed.

Lemma attemptInOrder_builds second files : forall w oks w',
  attemptInOrder env second files w = Done oks w' ->
  builtFiles (trace w') = builtFiles (trace w) ++ files /\
  List.length oks = List.length files.
Proof.
  induction files as [|f rest IH]; simpl; intros w oks w' H.
  - inversion H; subst. rewrite app_nil_r. auto.
  - unfold bind in H.
    destruct (buildAndTest env f second w) as [ok w1| | |] eqn:E1;
      try discriminate.
    destruct (attemptInOrder env second rest w1) as [oks1 w2| | |] eqn:E2;
      try discriminate.
    inversion H; subst.
    destruct (IH _ _ _ E2) as [Hb Hl].
    rewrite Hb, (buildAndTest_builds _ _ _ E1), <- app_assoc. simpl.
    auto.
Qed.

(** The loop that pushes to an array is the pass of the specification. *)
Lemma attemptEach_inOrder second files : forall failed w,
  attemptEach env second files failed w =
  (oks <- attemptInOrder env second files ;;
   ret (failed ++ stillFailing files oks)) w.
Proof.
  induction files as [|f rest IH]; simpl; intros failed w.
  - unfold bind, ret. rewrite app_nil_r. reflexivity.
  - unfold bind at 1 2 3.
    destruct (buildAndTest env f second w) as [ok w1| | |]; try reflexivity.
    rewrite IH. unfold bind, ret.
    destruct (attemptInOrder env second rest w1) as [oks w2| | |];
      try reflexivity.
    destruct ok; simpl; rewrite <- ?app_assoc; reflexivity.
Qed.

Lemma runTestFiles_twoPasses files w :
  runTestFiles env files w = twoPasses env files w.
Proof.
  unfold runTestFiles, twoPasses. unfold bind at 1.
  rewrite attemptEach_inOrder. unfold bind at 1 3. unfold bind at 2.
  destruct (attemptInOrder env false files w) as [oks1 w1| | |];
    try reflexivity.
  simpl. destruct (isCI env); simpl; [|reflexivity].
  unfold bind at 1. rewrite attemptEach_inOrder. unfold bind, ret.
  destruct (attemptInOrder env true (stillFailing files oks1) w1); reflexivity.
Qed.

(** C1.  The scheduler is the two-pass policy of the specification: pass 1
    attempts every discovered file once, in discovery order; pass 2 is
    entered only in CI and attempts exactly the files that failed pass 1,
    in their original order; the result is the sequence of files failing
    the last pass entered.  Read on the trace, a run that returns has
    called the build step for the discovered files in order and then, in
    CI only, for the pass-1 failures in order. *)
Theorem runTestFiles_two_pass_policy files w :
  runTestFiles env files w = twoPasses env files w /\
  forall failed w',
    runTestFiles env files w = Done failed w' ->
    exists oks1 w1,
      attemptInOrder env false files w = Done oks1 w1 /\
      List.length oks1 = List.length files /\
      builtFiles (trace w1) = builtFiles (trace w) ++ files /\
      if isCI env then
        exists oks2,
          attemptInOrder env true (stillFailing files oks1) w1 = Done oks2 w' /\
          List.length oks2 = List.length (stillFailing files oks1) /\
          builtFiles (trace w') =
            builtFiles (trace w) ++ files ++ stillFailing files oks1 /\
          failed = stillFailing (stillFailing files oks1) oks2
      else w' = w1 /\ failed = stillFailing files oks1.
Proof.
  split; [apply runTestFiles_twoPasses|]. intros failed w' H.
  rewrite runTestFiles_twoPasses in H. unfold twoPasses in H.
  unfold bind at 1 in H.
  destruct (attemptInOrder env false files w) as [oks1 w1| | |] eqn:E1;
    try discriminate.
  destruct (attemptInOrder_builds _ _ _ E1) as [Hb1 Hl1].
  exists oks1, w1. repeat split; auto.
  destruct (isCI env).
  - unfold bind in H.
    destruct (attemptInOrder env true (stillFailing files oks1) w1)
      as [oks2 w2| | |] eqn:E2; try discriminate.
    inversion H; subst.
    destruct (attemptInOrder_builds _ _ _ E2) as [Hb2 Hl2].
    exists oks2. repeat split; auto.
    rewrite Hb2, Hb1, <- app_assoc. reflexivity.
  - inversion H; subst. auto.
Qed.

End Scheduler.

(** ** One iteration of the case loop *)

Lemma callHook_eq ev h w :
  callHook ev h w =
  let w' := mkWorld (fst (h (logEntries w))) (currentTest w) (armedTimers w)
                    (trace w ++ [ev]) in
  match snd (h (logEntries w)) with
  | Some e => Threw e w'
  | None => Done tt w'
  end.
Proof.
  unfold callHook, bind, emit, getLogs, setLogs. simpl.
  destruct (h (logEntries w)) as [l' [e|]]; reflexivity.
Qed.

(** What [await runTest(...)] inside [try]/[catch] leaves behind. *)
Lemma runTest_caught env fn ms w :
  tryCatch (runTest env fn ms ;; ret JsUndefined) (fun err_ => ret err_) w =
  let res := snd (fn (logEntries w)) in
  Done (caught env ms res)
       (mkWorld (fst (fn (logEntries w))) (currentTest w)
                (timersAfter ms res (armedTimers w))
                (trace w ++ [EvSetTimeout ms; EvCallTestFn])).
Proof.
  unfold tryCatch, bind at 1.
  destruct (fn (logEntries w)) as [l' [e|a]] eqn:H; simpl.
  - rewrite (runTest_throws_sync env fn ms w H). reflexivity.
  - rewrite (runTest_returns env fn ms w H), runRace_promise.
    destruct a as [[|e]|[|e]|]; reflexivity.
Qed.

Lemma runCase_eq env ri after final c w :
  runCase env ri after final c w =
  let ms := testFunctionTimeout ri in
  let ran := testFn c (logEntries w ++ [caseMarker c]) in
  let err := caught env ms (snd ran) in
  let hooked := after (truthy err) (fst ran) in
  let timers := timersAfter ms (snd ran) (armedTimers w) in
  let tr := trace w ++ caseEvents ms c (truthy err) in
  let failOnWarning := negb (doNotFailOnWarning ri) in
  match snd hooked with
  | Some e => Threw e (mkWorld (fst hooked) (currentTest w) timers tr)
  | None =>
      if truthy err then
        Done false
          (mkWorld [] (currentTest w) timers
             (tr ++ [EvLogFail (threwReason (testDesc c)) final;
                     EvLogError err; EvLogErrorsAndWarnings; EvFlushLogs]))
      else if hasFailEntries failOnWarning (fst hooked) then
        Done false
          (mkWorld [] (currentTest w) timers
             (tr ++ [EvLogFail (logDetectedReason failOnWarning (testDesc c))
                               final;
                     EvLogErrorsAndWarnings; EvFlushLogs]))
      else Done true (mkWorld [] (currentTest w) timers tr)
  end.
Proof.
  unfold runCase. unfold bind at 1 2 3. unfold Logs.add, emit at 1.
  rewrite runTest_caught. cbv zeta. cbn [logEntries currentTest armedTimers trace].
  fold (caseMarker c).
  set (ran := testFn c (logEntries w ++ [caseMarker c])).
  set (err := caught env (testFunctionTimeout ri) (snd ran)).
  unfold bind at 1. unfold emit at 1.
  unfold bind at 1. rewrite callHook_eq. cbv zeta.
  cbn [logEntries currentTest armedTimers trace].
  set (hooked := after (truthy err) (fst ran)).
  unfold caseEvents.
  destruct (snd hooked) as [e|].
  - repeat (rewrite <- app_assoc; simpl). reflexivity.
  - unfold bind at 1. unfold Logs.hasFailLogs.
    cbn [logEntries currentTest armedTimers trace].
    destruct (truthy err) eqn:Ht; simpl.
    + unfold logFailure, Logs.logErrorsAndWarnings, Logs.flushLogs, bind,
        emit, setLogs, ret. rewrite Ht. simpl.
      repeat (rewrite <- app_assoc; simpl). reflexivity.
    + destruct (hasFailEntries (negb (doNotFailOnWarning ri)) (fst hooked)).
      * unfold logFailure, Logs.logErrorsAndWarnings, Logs.flushLogs, bind,
          emit, setLogs, ret. simpl.
        repeat (rewrite <- app_assoc; simpl). reflexivity.
      * unfold Logs.clearLogs, bind, setLogs, ret. simpl.
        repeat (rewrite <- app_assoc; simpl). reflexivity.
Qed.

(** ** The case loop *)

Lemma progressLines_app a b :
  progressLines (a ++ b) = progressLines a ++ progressLines b.
Proof.
  induction a as [|e a IH]; simpl; [reflexivity|].
  destruct e; simpl; rewrite ?IH; reflexivity.
Qed.

Lemma runTestsLoop_app env ri after final pre rest : forall w,
  runTestsLoop env ri after final (pre ++ rest) w =
  match runTestsLoop env ri after final pre w with
  | Done true w1 => runTestsLoop env ri after final rest w1
  | o => o
  end.
Proof.
  induction pre as [|c pre IH]; intros w; simpl; [reflexivity|].
  unfold bind.
  destruct (runCase env ri after final c w) as [[|] w1|e w1|k w1|w1];
    try reflexivity.
  apply IH.
Qed.

(** The loop stops at the first case whose iteration returns [false]:
    nothing of the cases behind it is looked at. *)
Lemma runTestsLoop_stops env ri after final pre c post w w1 w2 :
  runTestsLoop env ri after final pre w = Done true w1 ->
  runCase env ri after final c w1 = Done false w2 ->
  runTestsLoop env ri after final (pre ++ c :: post) w = Done false w2.
Proof.
  intros Hpre Hc. rewrite runTestsLoop_app, Hpre. simpl.
  unfold bind. rewrite Hc. reflexivity.
Qed.

(** A passing iteration leaves an empty log, and has announced its case. *)
Lemma runCase_pass env ri after final c w w' :
  runCase env ri after final c w = Done true w' ->
  logEntries w' = [] /\
  progressLines (trace w') =
    progressLines (trace w) ++ [progressLine (testDesc c)].
Proof.
  rewrite runCase_eq. cbv zeta.
  destruct (snd (after _ _)); [discriminate|].
  destruct (truthy _); [discriminate|].
  destruct (hasFailEntries _ _); [discriminate|].
  intros H. inversion H; subst; clear H. simpl. split; [reflexivity|].
  rewrite progressLines_app. reflexivity.
Qed.

(** A loop that returns [true] has run every case, in registration
    order. *)
Lemma runTestsLoop_pass env ri after final cases : forall w w',
  runTestsLoop env ri after final cases w = Done true w' ->
  progressLines (trace w') =
    progressLines (trace w) ++ map (fun c => progressLine (testDesc c)) cases /\
  (cases <> [] -> logEntries w' = []).
Proof.
  induction cases as [|c rest IH]; simpl; intros w w' H.
  - inversion H; subst. rewrite app_nil_r. split; congruence.
  - unfold bind in H.
    destruct (runCase env ri after final c w) as [[|] w1|e w1|k w1|w1] eqn:Hc;
      try discriminate.
    destruct (runCase_pass _ _ _ _ _ _ Hc) as [Hl Hp].
    destruct (IH _ _ H) as [Hp' Hl'].
    split.
    + rewrite Hp', Hp, <- app_assoc. reflexivity.
    + intros _. destruct rest as [|c' rest'].
      * simpl in H. inversion H; subst. exact Hl.
      * apply Hl'. discriminate.
Qed.

Lemma caught_truthy env ms res :
  throwsTruthy res = true -> truthy (caught env ms res) = caseThrew env ms res.
Proof.
  destruct res as [e|[[|e]|[|e]|]]; simpl; auto.
Qed.

(** ** A file that called [run()] *)

Lemma runServerAndTests_running env second w t ri start stop :
  currentTest w = Some t ->
  declaredRun t ri start stop ->
  runServerAndTests env second w =
  let final := isFinalAttemptOf second ri in
  match callHook EvStartServer start (pageOpened t w) with
  | Done _ w1 =>
      (success <- runTests env (setPage t ThePage) final ;;
       terminateAndReport env stop final success) w1
  | Threw err w1 => startServerFailed env err final w1
  | Exited c w1 => Exited c w1
  | Hangs w1 => Hangs w1
  end.
Proof.
  intros Hc (Hs & Hr & Hst & Hsp).
  unfold runServerAndTests, getCurrentTest. unfold bind at 1.
  rewrite Hc. simpl. rewrite Hs, Hr, Hst, Hsp. simpl.
  unfold bind at 1 2 3. simpl. unfold bind at 1. simpl.
  unfold bind at 1. unfold setCurrent at 1. simpl.
  fold (pageOpened t w).
  unfold bind at 1, tryCatch, bind at 1.
  destruct (callHook EvStartServer start (pageOpened t w)) as [[] w1|e w1|k w1|w1];
    simpl; try reflexivity.
  unfold bind at 1.
  destruct (startServerFailed env e (isFinalAttemptOf second ri) w1);
    reflexivity.
Qed.

Lemma failedOutcome_failed env final w w' : FileFailed (failedOutcome env final w w').
Proof.
  unfold failedOutcome, FileFailed.
  destruct (final && isParallelCI env); eauto.
Qed.

Lemma logFailure_eq err why final w :
  logFailure err why final w =
  Done tt (withLogs (withTrace w (logFailureEvents err why final)) []).
Proof.
  unfold logFailure, logFailureEvents, withTrace, withLogs,
    Logs.logErrorsAndWarnings, Logs.flushLogs, bind, emit, setLogs, ret.
  destruct (truthy err); simpl; repeat (rewrite <- app_assoc; simpl);
    reflexivity.
Qed.

Lemma abortMaybe_eq env final w :
  abortMaybe env final w =
  if final && isParallelCI env
  then Exited 1%Z (withTrace w [EvProcessExit 1%Z])
  else Done tt w.
Proof. unfold abortMaybe. destruct (final && isParallelCI env); reflexivity. Qed.

(** The [catch] clause around [startServer]: the failure is logged, and
    the function returns [false] (or the process ends) there and then. *)
Lemma startServerFailed_eq env err final w :
  startServerFailed env err final w =
  let w1 := withLogs (withTrace w (logFailureEvents err startReason final)) [] in
  failedOutcome env final w1 w1.
Proof.
  unfold startServerFailed, bind. rewrite logFailure_eq, abortMaybe_eq.
  unfold failedOutcome. cbv zeta.
  destruct (final && isParallelCI env); reflexivity.
Qed.

(** From the stop hook to the end of [runServerAndTests]. *)
Lemma terminateAndReport_eq env stop final ok w :
  terminateAndReport env stop final ok w =
  let hooked := stop (logEntries w) in
  match snd hooked with
  | Some e =>
      Threw e (withTrace (withLogs w (fst hooked)) [EvTerminateServer])
  | None =>
      let w1 := withTrace (withLogs w (fst hooked))
                          [EvTerminateServer; EvPageClose] in
      if ok then
        if hasFailEntries true (fst hooked) && negb (isWindows env) then
          let w2 := withLogs (withTrace w1 (logFailureEvents JsNull
                                              (terminationReason true) final))
                             [] in
          failedOutcome env final w2 w2
        else Done true (withLogs (withTrace w1 [EvLogPass]) [])
      else failedOutcome env final w1 (withLogs w1 [])
  end.
Proof.
  unfold terminateAndReport. unfold bind at 1. rewrite callHook_eq. cbv zeta.
  destruct (snd (stop (logEntries w))) as [e|]; [reflexivity|].
  unfold bind at 1, pageClose, emit at 1.
  cbn [logEntries currentTest armedTimers trace].
  unfold failedOutcome, withTrace, withLogs.
  cbn [logEntries currentTest armedTimers trace].
  rewrite <- app_assoc. simpl.
  destruct ok.
  - unfold bind at 1 2, Logs.hasFailLogs.
    cbn [logEntries currentTest armedTimers trace].
    destruct (hasFailEntries true (fst (stop (logEntries w)))
              && negb (isWindows env)).
    + unfold bind at 1. rewrite logFailure_eq. unfold ret at 1.
      unfold bind at 1. rewrite abortMaybe_eq.
      unfold withTrace, withLogs.
      cbn [logEntries currentTest armedTimers trace].
      destruct (final && isParallelCI env); reflexivity.
    + reflexivity.
  - unfold bind at 1 2, ret at 1. unfold bind at 1. rewrite abortMaybe_eq.
    unfold withTrace. cbn [logEntries currentTest armedTimers trace].
    destruct (final && isParallelCI env); reflexivity.
Qed.

Lemma runTestFiles_two_pass_policy_witness :
  exists failed w',
    runTestFiles (Sample.env true false) ["pass.ts"; "flaky.ts"] initialWorld
      = Done failed w' /\
    failed = [] /\
    builtFiles (trace w') = ["pass.ts"; "flaky.ts"; "flaky.ts"].
Proof.
  eexists. eexists.
  assert (H : runTestFiles (Sample.env true false) ["pass.ts"; "flaky.ts"]
                initialWorld
              = Done [] (finalWorld
                           (runTestFiles (Sample.env true false)
                              ["pass.ts"; "flaky.ts"] initialWorld)))
    by (vm_compute; reflexivity).
  split; [exact H|].
  destruct (proj2 (runTestFiles_two_pass_policy (Sample.env true false)
                     ["pass.ts"; "flaky.ts"] initialWorld) _ _ H)
    as [oks1 [w1 [H1 [_ [_ H2]]]]].
  split; [reflexivity|].
  vm_compute. reflexivity.
Defined.

(** ** Skipped files *)

(** The skip path of [runServerAndTests]. *)
Lemma runServerAndTests_skipped env second w t s :
  currentTest w = Some t ->
  skipped t = Some s ->
  runServerAndTests env second w =
    (if isDefined (runInfo t) then
       Threw (JsErr UsageError "You cannot call run() after calling skip()") w
     else if isDefined (tests t) then
       Threw (JsErr UsageError "You cannot call test() after calling skip()") w
     else Done true (withTrace w [EvLogWarn (reason s)])).
Proof.
  intros Hc Hs.
  unfold runServerAndTests, getCurrentTest. unfold bind at 1.
  rewrite Hc. simpl. rewrite Hs.
  unfold assertSkipUsage, bind, assert, assertUsage, logWarn, emit, ret.
  rewrite Hs. simpl.
  destruct (runInfo t); simpl; [reflexivity|].
  destruct (tests t); reflexivity.
Qed.

(** C7.  A file that called [skip()] runs no case: when it declared
    neither [run()] nor any case it is recorded as a pass, with its reason
    logged as a warning; when it also called [run()] or [test()] a usage
    error is raised instead.  Either way no case body is called. *)
Theorem skipped_file_runs_nothing env second w t s :
  currentTest w = Some t ->
  skipped t = Some s ->
  runServerAndTests env second w =
    (if isDefined (runInfo t) then
       Threw (JsErr UsageError "You cannot call run() after calling skip()") w
     else if isDefined (tests t) then
       Threw (JsErr UsageError "You cannot call test() after calling skip()") w
     else Done true (withTrace w [EvLogWarn (reason s)])) /\
  exists evs,
    trace (finalWorld (runServerAndTests env second w)) = trace w ++ evs /\
    existsb isCaseRun evs = false.
Proof.
  intros Hc Hs.
  pose proof (runServerAndTests_skipped env second w Hc Hs) as E.
  split; [exact E|]. rewrite E.
  destruct (isDefined (runInfo t)); [exists []; simpl; rewrite app_nil_r; auto|].
  destruct (isDefined (tests t)); [exists []; simpl; rewrite app_nil_r; auto|].
  exists [EvLogWarn (reason s)]. auto.
Qed.

Lemma skipped_file_runs_nothing_witness :
  let skippedOnly := Sample.fileOf (Sample.declareSkip "not on this platform") in
  let skippedAndRun :=
    Sample.declareSkip "not on this platform"
      (Sample.fileOf
         (Sample.declareRun Sample.strict Sample.quietHook Sample.quietHook
            Sample.quietAfter [Sample.passingCase "one"])) in
  runServerAndTests (Sample.env false false) false (Sample.during skippedOnly)
  = Done true (withTrace (Sample.during skippedOnly)
                         [EvLogWarn "not on this platform"]) /\
  runServerAndTests (Sample.env false false) false (Sample.during skippedAndRun)
  = Threw (JsErr UsageError "You cannot call run() after calling skip()")
          (Sample.during skippedAndRun).
Proof.
  split.
  - exact (proj1 (skipped_file_runs_nothing (Sample.env false false) false
                    (Sample.during
                       (Sample.fileOf
                          (Sample.declareSkip "not on this platform")))
                    eq_refl eq_refl)).
  - exact (proj1 (skipped_file_runs_nothing (Sample.env false false) false
                    (Sample.during
                       (Sample.declareSkip "not on this platform"
                          (Sample.fileOf
                             (Sample.declareRun Sample.strict Sample.quietHook
                                Sample.quietHook Sample.quietAfter
                                [Sample.passingCase "one"]))))
                    eq_refl eq_refl)).
Defined.

(** ** After the case loop *)

Lemma running_after_start env second w t ri start stop w1 ok w2 :
  currentTest w = Some t ->
  declaredRun t ri start stop ->
  callHook EvStartServer start (pageOpened t w) = Done tt w1 ->
  runTests env (setPage t ThePage) (isFinalAttemptOf second ri) w1 = Done ok w2 ->
  runServerAndTests env second w =
  terminateAndReport env stop (isFinalAttemptOf second ri) ok w2.
Proof.
  intros Hc Hd Hs Hr.
  rewrite (runServerAndTests_running env second w Hc Hd). cbv zeta.
  rewrite Hs. unfold bind. rewrite Hr. reflexivity.
Qed.

Lemma runTests_pass env t final w w' cases :
  runTests env t final w = Done true w' ->
  tests t = Some cases ->
  progressLines (trace w') =
    progressLines (trace w) ++ map (fun c => progressLine (testDesc c)) cases /\
  (cases <> [] -> logEntries w' = []).
Proof.
  unfold runTests, assertDefined. intros H Ht. rewrite Ht in H.
  destruct (runInfo t) as [ri|]; [|discriminate].
  destruct (afterEach t) as [after|]; [|discriminate].
  unfold bind in H. simpl in H.
  exact (runTestsLoop_pass _ _ _ _ _ _ H).
Qed.

Lemma warning_is_failure l :
  existsb isWarning l = true -> hasFailEntries true l = true.
Proof.
  unfold hasFailEntries. induction l as [|e l IH]; simpl; [discriminate|].
  unfold isWarning, isFailEntry at 1.
  destruct (severity e); simpl; auto.
Qed.

Lemma failedOutcome_trace env final w w' :
  trace w' = trace w ->
  trace (finalWorld (failedOutcome env final w w')) =
  trace w ++ (if final && isParallelCI env then [EvProcessExit 1%Z] else []).
Proof.
  intros H. unfold failedOutcome.
  destruct (final && isParallelCI env); simpl; [reflexivity|].
  rewrite app_nil_r. exact H.
Qed.

(** C4.  When every case of a file passed and the stop hook has returned,
    the log is checked once more, except on Windows: if it then holds an
    error or a warning, the file is marked failed, with the reason that
    it occurred during server termination; otherwise, and always on
    Windows, the file passes.  When at least one case ran, the log was
    empty before the stop hook, so what is checked is what the stop hook
    left. *)
Theorem post_stop_entries_fail_file env second w t ri start stop w1 w2 :
  currentTest w = Some t ->
  declaredRun t ri start stop ->
  callHook EvStartServer start (pageOpened t w) = Done tt w1 ->
  runTests env (setPage t ThePage) (isFinalAttemptOf second ri) w1
    = Done true w2 ->
  snd (stop (logEntries w2)) = None ->
  let final := isFinalAttemptOf second ri in
  let afterStop := fst (stop (logEntries w2)) in
  let o := runServerAndTests env second w in
  (forall cases, tests t = Some cases -> cases <> [] ->
     afterStop = fst (stop [])) /\
  if hasFailEntries true afterStop && negb (isWindows env) then
    FileFailed o /\
    exists post,
      trace (finalWorld o) =
      trace w2 ++ [EvTerminateServer; EvPageClose;
                   EvLogFail (terminationReason true) final] ++ post
  else
    exists w', o = Done true w' /\
      trace w' = trace w2 ++ [EvTerminateServer; EvPageClose; EvLogPass].
Proof.
  intros Hc Hd Hs Hr Hq final afterStop o.
  split.
  { intros cases Ht Hne. unfold afterStop.
    destruct (runTests_pass _ _ _ _ Hr (cases := cases)) as [_ Hl];
      [exact Ht|].
    rewrite (Hl Hne). reflexivity. }
  unfold o. rewrite (running_after_start env second w Hc Hd Hs Hr).
  rewrite terminateAndReport_eq. cbv zeta. rewrite Hq.
  fold afterStop. fold final.
  destruct (hasFailEntries true afterStop && negb (isWindows env)).
  - split; [apply failedOutcome_failed|].
    rewrite failedOutcome_trace by reflexivity.
    unfold withTrace, withLogs, logFailureEvents. simpl.
    eexists. repeat (rewrite <- app_assoc; simpl). reflexivity.
  - eexists. split; [reflexivity|].
    unfold withTrace, withLogs. simpl.
    repeat (rewrite <- app_assoc; simpl). reflexivity.
Qed.

(** C10.  The check after the stop hook counts warnings, whatever the
    file's [doNotFailOnWarning] says: off Windows a warning left in the
    log fails a file all of whose cases passed.  The check is made only
    when the case loop returned [true]: after a failed loop the file is
    failed without looking at the log, and nothing is logged for the
    termination. *)
Theorem post_stop_check_counts_warnings env second w t ri start stop w1 ok w2 :
  currentTest w = Some t ->
  declaredRun t ri start stop ->
  callHook EvStartServer start (pageOpened t w) = Done tt w1 ->
  runTests env (setPage t ThePage) (isFinalAttemptOf second ri) w1
    = Done ok w2 ->
  snd (stop (logEntries w2)) = None ->
  let final := isFinalAttemptOf second ri in
  let afterStop := fst (stop (logEntries w2)) in
  let o := runServerAndTests env second w in
  (ok = true -> isWindows env = false ->
   existsb isWarning afterStop = true -> FileFailed o) /\
  (ok = true ->
   (FileFailed o <->
    hasFailEntries true afterStop && negb (isWindows env) = true)) /\
  (ok = false ->
   FileFailed o /\
   trace (finalWorld o) =
   trace w2 ++ [EvTerminateServer; EvPageClose]
     ++ (if final && isParallelCI env then [EvProcessExit 1%Z] else [])).
Proof.
  intros Hc Hd Hs Hr Hq final afterStop o.
  assert (E : o = terminateAndReport env stop final ok w2)
    by (apply (running_after_start env second w Hc Hd Hs Hr)).
  rewrite terminateAndReport_eq in E. cbv zeta in E. rewrite Hq in E.
  fold afterStop in E.
  assert (Hflag : ok = true ->
            (FileFailed o <->
             hasFailEntries true afterStop && negb (isWindows env) = true)).
  { intros ->. rewrite E.
    destruct (hasFailEntries true afterStop && negb (isWindows env)).
    - split; [reflexivity|]. intros _. apply failedOutcome_failed.
    - split; [|discriminate].
      intros [w' [H|H]]; discriminate. }
  split; [|split; [exact Hflag|]].
  - intros Hok Hwin Hwarn. apply (Hflag Hok).
    rewrite (warning_is_failure _ Hwarn), Hwin. reflexivity.
  - intros ->. rewrite E. split; [apply failedOutcome_failed|].
    rewrite failedOutcome_trace by reflexivity.
    unfold withTrace, withLogs. simpl. rewrite <- app_assoc. reflexivity.
Qed.

Lemma post_stop_entries_fail_file_witness :
  FileFailed (runServerAndTests (Sample.env false false) false
                (Sample.during Sample.noisyStop)) /\
  exists w',
    runServerAndTests (Sample.env false false) false
      (Sample.during Sample.allPass) = Done true w'.
Proof.
  split.
  - assert (Hs : callHook EvStartServer Sample.quietHook
                   (pageOpened Sample.noisyStop (Sample.during Sample.noisyStop))
                 = Done tt (Sample.started Sample.quietHook Sample.noisyStop))
      by (vm_compute; reflexivity).
    assert (Hr : runTests (Sample.env false false)
                   (setPage Sample.noisyStop ThePage)
                   (isFinalAttemptOf false Sample.strict)
                   (Sample.started Sample.quietHook Sample.noisyStop)
                 = Done true
                     (finalWorld
                        (runTests (Sample.env false false)
                           (setPage Sample.noisyStop ThePage) true
                           (Sample.started Sample.quietHook Sample.noisyStop))))
      by (vm_compute; reflexivity).
    assert (Hd : declaredRun Sample.noisyStop Sample.strict Sample.quietHook
                   (Sample.loggingHook Sample.bootError))
      by (repeat split).
    assert (Hq : snd (Sample.loggingHook Sample.bootError
                        (logEntries
                           (finalWorld
                              (runTests (Sample.env false false)
                                 (setPage Sample.noisyStop ThePage) true
                                 (Sample.started Sample.quietHook
                                    Sample.noisyStop))))) = None)
      by reflexivity.
    pose proof (@post_stop_entries_fail_file (Sample.env false false) false
                  (Sample.during Sample.noisyStop) _ _ _ _ _ _
                  eq_refl Hd Hs Hr Hq) as H.
    destruct H as [_ H]. vm_compute in H. vm_compute. exact (proj1 H).
  - assert (Hs : callHook EvStartServer Sample.quietHook
                   (pageOpened Sample.allPass (Sample.during Sample.allPass))
                 = Done tt (Sample.started Sample.quietHook Sample.allPass))
      by (vm_compute; reflexivity).
    assert (Hr : runTests (Sample.env false false)
                   (setPage Sample.allPass ThePage)
                   (isFinalAttemptOf false Sample.strict)
                   (Sample.started Sample.quietHook Sample.allPass)
                 = Done true
                     (finalWorld
                        (runTests (Sample.env false false)
                           (setPage Sample.allPass ThePage) true
                           (Sample.started Sample.quietHook Sample.allPass))))
      by (vm_compute; reflexivity).
    assert (Hd : declaredRun Sample.allPass Sample.strict Sample.quietHook
                   Sample.quietHook)
      by (repeat split).
    assert (Hq : snd (Sample.quietHook
                        (logEntries
                           (finalWorld
                              (runTests (Sample.env false false)
                                 (setPage Sample.allPass ThePage) true
                                 (Sample.started Sample.quietHook
                                    Sample.allPass))))) = None)
      by reflexivity.
    pose proof (@post_stop_entries_fail_file (Sample.env false false) false
                  (Sample.during Sample.allPass) _ _ _ _ _ _
                  eq_refl Hd Hs Hr Hq) as H.
    destruct H as [_ H]. vm_compute in H. vm_compute.
    destruct H as [w' [Hw' _]]. exists w'. exact Hw'.
Defined.

Lemma post_stop_check_counts_warnings_witness :
  doNotFailOnWarning Sample.lenient = true /\
  FileFailed (runServerAndTests (Sample.env false false) false
                (Sample.during Sample.warnOnStop)) /\
  FileFailed (runServerAndTests (Sample.env false false) false
                (Sample.during Sample.throwsThenWarns)).
Proof.
  split; [reflexivity|]. split.
  - assert (Hs : callHook EvStartServer Sample.quietHook
                   (pageOpened Sample.warnOnStop
                      (Sample.during Sample.warnOnStop))
                 = Done tt (Sample.started Sample.quietHook Sample.warnOnStop))
      by (vm_compute; reflexivity).
    assert (Hr : runTests (Sample.env false false)
                   (setPage Sample.warnOnStop ThePage)
                   (isFinalAttemptOf false Sample.lenient)
                   (Sample.started Sample.quietHook Sample.warnOnStop)
                 = Done true
                     (finalWorld
                        (runTests (Sample.env false false)
                           (setPage Sample.warnOnStop ThePage) true
                           (Sample.started Sample.quietHook
                              Sample.warnOnStop))))
      by (vm_compute; reflexivity).
    assert (Hd : declaredRun Sample.warnOnStop Sample.lenient Sample.quietHook
                   (Sample.loggingHook Sample.deprecation))
      by (repeat split).
    assert (Hq : snd (Sample.loggingHook Sample.deprecation
                        (logEntries
                           (finalWorld
                              (runTests (Sample.env false false)
                                 (setPage Sample.warnOnStop ThePage) true
                                 (Sample.started Sample.quietHook
                                    Sample.warnOnStop))))) = None)
      by reflexivity.
    pose proof (@post_stop_check_counts_warnings (Sample.env false false)
                  false (Sample.during Sample.warnOnStop) _ _ _ _ _ _ _
                  eq_refl Hd Hs Hr Hq) as H.
    destruct H as [H _]. apply H; vm_compute; reflexivity.
  - assert (Hs : callHook EvStartServer Sample.quietHook
                   (pageOpened Sample.throwsThenWarns
                      (Sample.during Sample.throwsThenWarns))
                 = Done tt
                     (Sample.started Sample.quietHook Sample.throwsThenWarns))
      by (vm_compute; reflexivity).
    assert (Hr : runTests (Sample.env false false)
                   (setPage Sample.throwsThenWarns ThePage)
                   (isFinalAttemptOf false Sample.lenient)
                   (Sample.started Sample.quietHook Sample.throwsThenWarns)
                 = Done false
                     (finalWorld
                        (runTests (Sample.env false false)
                           (setPage Sample.throwsThenWarns ThePage) true
                           (Sample.started Sample.quietHook
                              Sample.throwsThenWarns))))
      by (vm_compute; reflexivity).
    assert (Hd : declaredRun Sample.throwsThenWarns Sample.lenient
                   Sample.quietHook (Sample.loggingHook Sample.deprecation))
      by (repeat split).
    assert (Hq : snd (Sample.loggingHook Sample.deprecation
                        (logEntries
                           (finalWorld
                              (runTests (Sample.env false false)
                                 (setPage Sample.throwsThenWarns ThePage) true
                                 (Sample.started Sample.quietHook
                                    Sample.throwsThenWarns))))) = None)
      by reflexivity.
    pose proof (@post_stop_check_counts_warnings (Sample.env false false)
                  false (Sample.during Sample.throwsThenWarns) _ _ _ _ _ _ _
                  eq_refl Hd Hs Hr Hq) as H.
    destruct H as [_ [_ H]]. exact (proj1 (H eq_refl)).
Defined.

(** ** Release of the server and the page *)

(** Puts a trace in the shape [trace w ++ e1 :: e2 :: ...]. *)
Ltac norm_trace :=
  cbn [trace logEntries currentTest armedTimers];
  repeat rewrite <- app_assoc;
  cbn [trace logEntries currentTest armedTimers app].


Lemma logFailureEvents_quiet (P : Event -> bool) err why final :
  P (EvLogFail why final) = false ->
  P (EvLogError err) = false ->
  P EvLogErrorsAndWarnings = false ->
  P EvFlushLogs = false ->
  existsb P (logFailureEvents err why final) = false.
Proof.
  intros H1 H2 H3 H4. unfold logFailureEvents.
  destruct (truthy err); simpl; rewrite ?H1, ?H2, ?H3, ?H4; reflexivity.
Qed.



(** ** The build step before the file runs *)

Lemma buildAndTest_prepare env f second w :
  buildAndTest env f second w =
  (prepare env f ;;
   success <- runServerAndTests env second ;;
   setCurrentTest None ;;
   ret success) w.
Proof.
  unfold buildAndTest, prepare. cbv zeta. unfold bind.
  destruct (assert (endsWith f ".ts") w) as [[] w0| | |]; try reflexivity.
  destruct (assert (endsWith (replace ".ts" ".mjs" f) ".mjs") w0);
    reflexivity.
Qed.

Lemma attemptEach_app env second pre rest : forall acc w,
  attemptEach env second (pre ++ rest) acc w =
  match attemptEach env second pre acc w with
  | Done failed w1 => attemptEach env second rest failed w1
  | Threw e w1 => Threw e w1
  | Exited c w1 => Exited c w1
  | Hangs w1 => Hangs w1
  end.
Proof.
  induction pre as [|f pre IH]; intros acc w; simpl; [reflexivity|].
  unfold bind.
  destruct (buildAndTest env f second w) as [ok w1| | |]; try reflexivity.
  apply IH.
Qed.

(** ** Checkpoints of the log *)

(** The log is not empty at the start of every case: nothing clears it
    between the start hook and the first case.  A file that starts with an
    empty log and whose start hook logs a warning enters its first case
    with that warning in the log, and the case, which does nothing, fails
    on it. *)
Lemma log_not_cleared_everywhere :
  let env := Sample.env false false in
  let w := Sample.during Sample.chattyStart in
  let start := Sample.loggingHook Sample.deprecation in
  let w1 := Sample.started start Sample.chattyStart in
  logEntries w = [] /\
  callHook EvStartServer start (pageOpened Sample.chattyStart w) = Done tt w1 /\
  runServerAndTests env false w =
    (success <- runTests env (setPage Sample.chattyStart ThePage) true ;;
     terminateAndReport env Sample.quietHook true success) w1 /\
  logEntries w1 = [Sample.deprecation] /\
  ~ emptyAtCaseStart w /\
  runTests env (setPage Sample.chattyStart ThePage) true w1
  = Done false (finalWorld
                  (runTests env (setPage Sample.chattyStart ThePage) true w1)).
Proof.
  cbv zeta.
  assert (Hs : callHook EvStartServer (Sample.loggingHook Sample.deprecation)
                 (pageOpened Sample.chattyStart
                    (Sample.during Sample.chattyStart))
               = Done tt
                   (Sample.started (Sample.loggingHook Sample.deprecation)
                      Sample.chattyStart))
    by (vm_compute; reflexivity).
  assert (Hd : declaredRun Sample.chattyStart Sample.strict
                 (Sample.loggingHook Sample.deprecation) Sample.quietHook)
    by (repeat split).
  split; [reflexivity|]. split; [exact Hs|]. split; [|split; [|split]].
  - rewrite (runServerAndTests_running (Sample.env false false) false
               (Sample.during Sample.chattyStart) eq_refl Hd).
    cbv zeta. rewrite Hs. reflexivity.
  - vm_compute. reflexivity.
  - intros Hinv. specialize (Hinv eq_refl _ _ _ _ _ eq_refl Hd Hs).
    vm_compute in Hinv. discriminate.
  - vm_compute. reflexivity.
Qed.

(** An iteration that returns leaves an empty log: [clearLogs] after a
    pass, the drain of the failure report after a failure. *)
Lemma runCase_log env ri after final c w b w' :
  runCase env ri after final c w = Done b w' -> logEntries w' = [].
Proof.
  rewrite runCase_eq. cbv zeta.
  destruct (snd (after _ _)); [discriminate|].
  destruct (truthy _); [|destruct (hasFailEntries _ _)];
    intros H; inversion H; subst; reflexivity.
Qed.

(** A file that called [run()] leaves an empty log whenever it returns,
    its start hook throwing included. *)
Lemma running_log env second w t ri start stop b w' :
  currentTest w = Some t ->
  declaredRun t ri start stop ->
  runServerAndTests env second w = Done b w' ->
  logEntries w' = [].
Proof.
  intros Hc Hd.
  rewrite (runServerAndTests_running env second w Hc Hd). cbv zeta.
  rewrite callHook_eq. cbv zeta.
  destruct (snd (start (logEntries (pageOpened t w)))) as [err|].
  - rewrite startServerFailed_eq. cbv zeta. unfold failedOutcome.
    destruct (isFinalAttemptOf second ri && isParallelCI env); [discriminate|].
    intros H. inversion H; subst. reflexivity.
  - unfold bind.
    destruct (runTests env (setPage t ThePage) (isFinalAttemptOf second ri) _)
      as [ok w2| | |]; try discriminate.
    rewrite terminateAndReport_eq. cbv zeta.
    destruct (snd (stop (logEntries w2))); [discriminate|].
    unfold failedOutcome.
    destruct ok;
      [destruct (hasFailEntries true (fst (stop (logEntries w2)))
                 && negb (isWindows env))|];
      try destruct (isFinalAttemptOf second ri && isParallelCI env);
      try discriminate;
      intros H; inversion H; subst; reflexivity.
Qed.

(** Whatever the current test declares, [runServerAndTests] returns with
    an empty log or with the log it found. *)
Lemma runServerAndTests_log env second w b w' :
  runServerAndTests env second w = Done b w' ->
  logEntries w' = [] \/ logEntries w' = logEntries w.
Proof.
  destruct (currentTest w) as [t|] eqn:Hc;
    [|unfold runServerAndTests, getCurrentTest, bind; rewrite Hc; discriminate].
  destruct (skipped t) as [s|] eqn:Hs.
  { rewrite (runServerAndTests_skipped env second w Hc Hs).
    destruct (isDefined (runInfo t)); [discriminate|].
    destruct (isDefined (tests t)); [discriminate|].
    intros H. inversion H; subst. right. reflexivity. }
  destruct (runInfo t) as [ri|] eqn:Hr;
    [|unfold runServerAndTests, getCurrentTest, bind; rewrite Hc; simpl;
      rewrite Hs, Hr; discriminate].
  destruct (startServer t) as [start|] eqn:Hst;
    [|unfold runServerAndTests, getCurrentTest, bind; rewrite Hc; simpl;
      rewrite Hs, Hr, Hst; discriminate].
  destruct (terminateServer t) as [stop|] eqn:Hsp;
    [|unfold runServerAndTests, getCurrentTest, bind; rewrite Hc; simpl;
      rewrite Hs, Hr, Hst, Hsp; discriminate].
  assert (Hd : declaredRun t ri start stop) by (repeat split; assumption).
  intros H. left. exact (running_log env second w Hc Hd H).
Qed.

(** The build and the import do not touch the log. *)
Lemma prepare_log env f w w1 :
  prepare env f w = Done tt w1 -> logEntries w1 = logEntries w.
Proof.
  unfold prepare, assert. cbv zeta.
  destruct (endsWith f ".ts"); [|discriminate].
  destruct (endsWith (replace ".ts" ".mjs" f) ".mjs"); [|discriminate].
  unfold bind, ret, buildTs, setCurrentTest, bind, emit, setCurrent,
    tryFinally, importFile, bind, emit, cleanBuild.
  cbn [logEntries currentTest armedTimers trace].
  destruct (importError _); [discriminate|].
  intros H. inversion H; subst. reflexivity.
Qed.

Lemma buildAndTest_log env f second w b w' :
  logEntries w = [] ->
  buildAndTest env f second w = Done b w' ->
  logEntries w' = [].
Proof.
  intros Hl. rewrite buildAndTest_prepare. unfold bind at 1.
  destruct (prepare env f w) as [[] w1| | |] eqn:Hp; try discriminate.
  apply prepare_log in Hp. unfold bind at 1.
  destruct (runServerAndTests env second w1) as [ok w2| | |] eqn:Hr;
    try discriminate.
  apply runServerAndTests_log in Hr.
  unfold bind, setCurrentTest, bind, emit, setCurrent, ret.
  cbn [logEntries currentTest armedTimers trace].
  intros H. inversion H; subst. cbn [logEntries].
  destruct Hr as [Hr|Hr]; congruence.
Qed.

Lemma attemptEach_log env second files : forall acc w acc' w',
  logEntries w = [] ->
  attemptEach env second files acc w = Done acc' w' ->
  logEntries w' = [].
Proof.
  induction files as [|f rest IH]; intros acc w acc' w' Hl; cbn [attemptEach].
  - intros H. inversion H; subst. exact Hl.
  - unfold bind.
    destruct (buildAndTest env f second w) as [ok w1| | |] eqn:Hb;
      try discriminate.
    apply (IH _ w1). exact (buildAndTest_log _ _ _ _ Hl Hb).
Qed.

(** C8, as the code has it.  An iteration of the case loop that returns
    leaves an empty log, cleared after a pass and drained by the failure
    report after a failure, so every case after the first starts from an
    empty log.  A file that called [run()] returns with an empty log,
    whether it passed or failed and whether its start hook returned or
    threw; the skip path leaves the log as it found it; so an attempt
    that starts with an empty log ends with an empty log, and every file
    of a pass starts with an empty log when the pass did.  Nothing clears
    the log between the start hook and the first case, which starts with
    what the start hook left. *)
Theorem log_cleared_at_checkpoints env :
  (forall ri after final c rest w,
     match runCase env ri after final c w with
     | Done true w' =>
         logEntries w' = [] /\
         runTestsLoop env ri after final (c :: rest) w =
         runTestsLoop env ri after final rest w'
     | Done false w' =>
         logEntries w' = [] /\
         runTestsLoop env ri after final (c :: rest) w = Done false w'
     | o => runTestsLoop env ri after final (c :: rest) w = o
     end) /\
  (forall second w t ri start stop,
     currentTest w = Some t ->
     declaredRun t ri start stop ->
     (forall w1,
        callHook EvStartServer start (pageOpened t w) = Done tt w1 ->
        logEntries w1 = fst (start (logEntries w)) /\
        runServerAndTests env second w =
          (success <- runTests env (setPage t ThePage)
                        (isFinalAttemptOf second ri) ;;
           terminateAndReport env stop (isFinalAttemptOf second ri) success)
            w1) /\
     (forall b w', runServerAndTests env second w = Done b w' ->
                   logEntries w' = [])) /\
  (forall second w t s b w',
     currentTest w = Some t ->
     skipped t = Some s ->
     runServerAndTests env second w = Done b w' ->
     logEntries w' = logEntries w) /\
  (forall f second w, clearedAtFileEnd env f second w) /\
  (forall second pre f post acc w,
     logEntries w = [] ->
     match attemptEach env second pre acc w with
     | Done acc1 w1 =>
         logEntries w1 = [] /\
         attemptEach env second (pre ++ f :: post) acc w =
         attemptEach env second (f :: post) acc1 w1
     | o => attemptEach env second (pre ++ f :: post) acc w = o
     end).
Proof.
  split; [|split; [|split; [|split]]].
  - intros ri after final c rest w. cbn [runTestsLoop]. unfold bind.
    destruct (runCase env ri after final c w) as [[|] w'|e w'|k w'|w'] eqn:Hc;
      try reflexivity;
      (split; [exact (runCase_log _ _ _ _ _ _ Hc)|reflexivity]).
  - intros second w t ri start stop Hc Hd. split.
    + intros w1 Hs. split.
      * rewrite callHook_eq in Hs. cbv zeta in Hs.
        destruct (snd (start (logEntries (pageOpened t w)))); [discriminate|].
        inversion Hs; subst. reflexivity.
      * rewrite (runServerAndTests_running env second w Hc Hd). cbv zeta.
        rewrite Hs. reflexivity.
    + intros b w'. exact (running_log env second w Hc Hd).
  - intros second w t s b w' Hc Hs H.
    rewrite (runServerAndTests_skipped env second w Hc Hs) in H.
    destruct (isDefined (runInfo t)); [discriminate|].
    destruct (isDefined (tests t)); [discriminate|].
    inversion H; subst. reflexivity.
  - intros f second w Hl b w'. exact (buildAndTest_log env f second w Hl).
  - intros second pre f post acc w Hl. rewrite attemptEach_app.
    destruct (attemptEach env second pre acc w) as [acc1 w1| | |] eqn:Hp;
      try reflexivity.
    split; [exact (attemptEach_log _ _ _ _ _ Hl Hp)|reflexivity].
Qed.

Lemma log_cleared_at_checkpoints_witness :
  logEntries
    (finalWorld
       (runServerAndTests (Sample.env false false) false
          (Sample.during Sample.noStart))) = [] /\
  logEntries (Sample.started (Sample.loggingHook Sample.deprecation)
                             Sample.chattyStart) = [Sample.deprecation].
Proof.
  destruct (log_cleared_at_checkpoints (Sample.env false false))
    as [_ [Hrun _]].
  split.
  - assert (Hd : declaredRun Sample.noStart Sample.strict
                   (Sample.crashingHook Sample.bootError Sample.boom)
                   Sample.quietHook)
      by (repeat split).
    assert (Hr : runServerAndTests (Sample.env false false) false
                   (Sample.during Sample.noStart)
                 = Done false
                     (finalWorld
                        (runServerAndTests (Sample.env false false) false
                           (Sample.during Sample.noStart))))
      by (vm_compute; reflexivity).
    destruct (Hrun false (Sample.during Sample.noStart) _ _ _ _ eq_refl Hd)
      as [_ Hend].
    exact (Hend _ _ Hr).
  - assert (Hs : callHook EvStartServer
                   (Sample.loggingHook Sample.deprecation)
                   (pageOpened Sample.chattyStart
                      (Sample.during Sample.chattyStart))
                 = Done tt
                     (Sample.started (Sample.loggingHook Sample.deprecation)
                        Sample.chattyStart))
      by (vm_compute; reflexivity).
    assert (Hd : declaredRun Sample.chattyStart Sample.strict
                   (Sample.loggingHook Sample.deprecation) Sample.quietHook)
      by (repeat split).
    destruct (Hrun false (Sample.during Sample.chattyStart) _ _ _ _
                eq_refl Hd) as [Hfirst _].
    destruct (Hfirst _ Hs) as [Hl _].
    rewrite Hl. reflexivity.
Defined.

(** ** The verdict on one case *)

(** Whenever what a case throws is truthy, the loop body decides as the
    specification says: the case fails when it threw or when the log holds
    a failing entry under [failOnWarning = !doNotFailOnWarning]; a failing
    case ends the loop, a passing one clears the log. *)
Lemma runCase_verdict env ri after final c w :
  let ms := testFunctionTimeout ri in
  let ran := testFn c (logEntries w ++ [caseMarker c]) in
  let threw := caseThrew env ms (snd ran) in
  let hooked := after threw (fst ran) in
  let failure :=
    threw || hasFailEntries (negb (doNotFailOnWarning ri)) (fst hooked) in
  throwsTruthy (snd ran) = true ->
  snd hooked = None ->
  exists w',
    runCase env ri after final c w = Done (negb failure) w' /\
    (failure = false -> logEntries w' = []) /\
    (failure = true ->
     forall rest,
       runTestsLoop env ri after final (c :: rest) w = Done false w').
Proof.
  intros ms ran threw hooked failure Ht Hq.
  pose proof (runCase_eq env ri after final c w) as E. cbv zeta in E.
  fold ms ran in E. rewrite (caught_truthy env ms _ Ht) in E.
  fold threw hooked in E. rewrite Hq in E. unfold failure.
  destruct threw; simpl.
  - eexists. split; [exact E|]. split; [discriminate|].
    intros _ rest. cbn [runTestsLoop]. unfold bind. rewrite E. reflexivity.
  - destruct (hasFailEntries (negb (doNotFailOnWarning ri)) (fst hooked)); simpl.
    + eexists. split; [exact E|]. split; [discriminate|].
      intros _ rest. cbn [runTestsLoop]. unfold bind. rewrite E. reflexivity.
    + eexists. split; [exact E|]. split; [reflexivity|discriminate].
Qed.

(** C3, where the code departs from it.  A case that throws a falsy value
    ([undefined], [null], [0], ...) while the log holds no failing entry
    is not counted as a failure: the case threw, yet the iteration clears
    the log, logs no failure and the loop goes on with the next case. *)
Theorem falsy_throw_passes env ri after final c rest w l1 e :
  testFn c (logEntries w ++ [caseMarker c]) = (l1, ThrowsSync e) ->
  truthy e = false ->
  snd (after false l1) = None ->
  hasFailEntries (negb (doNotFailOnWarning ri)) (fst (after false l1)) = false ->
  caseThrew env (testFunctionTimeout ri) (ThrowsSync e) = true /\
  exists w',
    runCase env ri after final c w = Done true w' /\
    trace w' = trace w ++ caseEvents (testFunctionTimeout ri) c false /\
    runTestsLoop env ri after final (c :: rest) w =
    runTestsLoop env ri after final rest w'.
Proof.
  intros Hfn He Hq Hl. split; [reflexivity|].
  pose proof (runCase_eq env ri after final c w) as E. cbv zeta in E.
  rewrite Hfn in E. simpl in E. rewrite He in E. rewrite Hq, Hl in E.
  eexists. split; [exact E|]. split; [reflexivity|].
  cbn [runTestsLoop]. unfold bind. rewrite E. reflexivity.
Qed.

Lemma falsy_throw_passes_witness :
  runTestsLoop (Sample.env false false) Sample.strict Sample.quietAfter true
    [Sample.throwingCase "one" JsUndefined] initialWorld
  = Done true
      (mkWorld [] None [5000%Z]
         (caseEvents 5000 (Sample.throwingCase "one" JsUndefined) false)).
Proof.
  destruct (@falsy_throw_passes (Sample.env false false) Sample.strict
              Sample.quietAfter true
              (Sample.throwingCase "one" JsUndefined) [] initialWorld
              _ JsUndefined eq_refl eq_refl eq_refl eq_refl)
    as [_ [w' [Hc [Ht Hl]]]].
  rewrite Hl. vm_compute in Hc. inversion Hc; subst. reflexivity.
Defined.

(** ** The timer of [runTest] *)

(** A body whose call returns: [runTest] settles in exactly one of three
    ways, and the timer is no longer armed when it does. *)
Lemma runTest_settles env fn ms w l' a :
  fn (logEntries w) = (l', Returns a) ->
  exists w',
    armedTimers w' = armedTimers w /\
    runTest env fn ms w =
    match a with
    | SettlesBeforeTimer Fulfils => Done tt w'
    | SettlesBeforeTimer (Rejects e) => Threw e w'
    | SettlesAfterTimer _ | NeverSettles =>
        Threw (timeoutError (humanizeTime env ms)) w'
    end.
Proof.
  intros H. rewrite (runTest_returns env fn ms w H), runRace_promise.
  eexists. split; [|destruct a as [[|e]|[|e]|]; reflexivity]. reflexivity.
Qed.

(** C5, where the code departs from it.  When the call of the body itself
    throws, [runTest] fails at once with that error, but it does so
    before the wrapper that clears the timer exists: the timer armed for
    the case is still armed afterwards. *)
Theorem sync_throw_leaves_timer_armed env fn ms w l' e :
  fn (logEntries w) = (l', ThrowsSync e) ->
  exists w',
    runTest env fn ms w = Threw e w' /\
    armedTimers w' = ms :: armedTimers w.
Proof.
  intros H. rewrite (runTest_throws_sync env fn ms w H).
  eexists. split; reflexivity.
Qed.

Lemma sync_throw_leaves_timer_armed_witness :
  exists w',
    runTest (Sample.env false false)
      (testFn (Sample.throwingCase "one" Sample.boom)) 5000 initialWorld
    = Threw Sample.boom w' /\
    armedTimers w' = [5000%Z].
Proof.
  exact (@sync_throw_leaves_timer_armed (Sample.env false false)
           (testFn (Sample.throwingCase "one" Sample.boom)) 5000 initialWorld
           [] Sample.boom eq_refl).
Defined.

(** ** The circuit breaker of parallel CI *)

(** The case loop does not consult the parallel-CI signal. *)
Lemma runTests_alone env t final w :
  runTests env t final w = runTests (withoutParallelCI env) t final w.
Proof. reflexivity. Qed.

(** Once an attempt has ended the process, the loop over the files has
    ended there too: the files behind it are never looked at. *)
Lemma attemptEach_exits env second pre f post acc w0 failed w1 wr c wx :
  attemptEach env second pre acc w0 = Done failed w1 ->
  prepare env f w1 = Done tt wr ->
  runServerAndTests env second wr = Exited c wx ->
  attemptEach env second (pre ++ f :: post) acc w0 = Exited c wx.
Proof.
  intros Hpre Hp Hr. rewrite attemptEach_app, Hpre. cbn [attemptEach].
  unfold bind at 1. rewrite buildAndTest_prepare. unfold bind at 1.
  rewrite Hp. unfold bind at 1. rewrite Hr. reflexivity.
Qed.

(** C6.  The final-attempt flag is true exactly in pass 2 or for a file
    not declared flaky.  In parallel CI, an attempt that is not final goes
    as it does outside parallel CI; on a final attempt, whatever would
    make the file return [false] ends the process with status 1 instead,
    so that [false] is never returned, while a passing file is not
    affected.  And once the process has ended in a file, the scheduler
    has ended with it, in the same world: no further file is attempted,
    in either pass. *)
Theorem final_failure_exits_in_parallel_ci env second w t ri start stop :
  isParallelCI env = true ->
  currentTest w = Some t ->
  declaredRun t ri start stop ->
  let final := isFinalAttemptOf second ri in
  let alone := runServerAndTests (withoutParallelCI env) second w in
  let o := runServerAndTests env second w in
  (final = true <-> second = true \/ isFlaky ri = false) /\
  (final = false -> o = alone) /\
  (final = true ->
   (forall w', alone = Done false w' ->
      exists w'', o = Exited 1%Z w'' /\
                  trace w'' = trace w' ++ [EvProcessExit 1%Z]) /\
   (forall w', o <> Done false w') /\
   (forall w', alone = Done true w' -> o = Done true w')) /\
  (forall pre f post acc w0 failed w1,
     attemptEach env second pre acc w0 = Done failed w1 ->
     prepare env f w1 = Done tt w ->
     forall c wx, o = Exited c wx ->
       attemptEach env second (pre ++ f :: post) acc w0 = Exited c wx /\
       (second = false -> acc = [] ->
        runTestFiles env (pre ++ f :: post) w0 = Exited c wx) /\
       (second = true -> acc = [] ->
        forall files w00,
          isCI env = true ->
          attemptEach env false files [] w00 = Done (pre ++ f :: post) w0 ->
          runTestFiles env files w00 = Exited c wx)).
Proof.
  intros Hpar Hc Hd final alone o.
  pose proof (runServerAndTests_running env second w Hc Hd) as Eo.
  pose proof (runServerAndTests_running (withoutParallelCI env) second w Hc Hd)
    as Ea.
  cbv zeta in Eo, Ea. fold o in Eo. fold alone in Ea. fold final in Eo, Ea.
  assert (Hcases :
    (final = false -> o = alone) /\
    (final = true ->
     (forall w', alone = Done false w' ->
        exists w'', o = Exited 1%Z w'' /\
                    trace w'' = trace w' ++ [EvProcessExit 1%Z]) /\
     (forall w', o <> Done false w') /\
     (forall w', alone = Done true w' -> o = Done true w'))).
  { rewrite Eo, Ea.
    destruct (callHook EvStartServer start (pageOpened t w))
      as [[] w1|err w1|k w1|w1].
    - unfold bind. rewrite <- runTests_alone.
      destruct (runTests env (setPage t ThePage) final w1)
        as [ok w2|e w2|k w2|w2];
        try (split; [reflexivity | intros _; repeat split; intros; discriminate]).
      rewrite !terminateAndReport_eq. cbv zeta.
      destruct (snd (stop (logEntries w2)));
        [split; [reflexivity | intros _; repeat split; intros; discriminate]|].
      change (isWindows (withoutParallelCI env)) with (isWindows env).
      unfold failedOutcome.
      change (isParallelCI (withoutParallelCI env)) with false.
      rewrite Hpar, andb_true_r, andb_false_r.
      destruct ok;
        [destruct (hasFailEntries true (fst (stop (logEntries w2)))
                   && negb (isWindows env))|];
        (split;
         [ intros ->; reflexivity
         | intros ->; repeat split; intros; try discriminate;
           try (match goal with
                | H : Done _ _ = Done _ _ |- _ => inversion H; subst
                end);
           try (eexists; split; [reflexivity|]; unfold withTrace, withLogs;
                cbn [trace]; reflexivity);
           try reflexivity ]).
    - rewrite !startServerFailed_eq. cbv zeta. unfold failedOutcome.
      change (isParallelCI (withoutParallelCI env)) with false.
      rewrite Hpar, andb_true_r, andb_false_r.
      split;
        [ intros ->; reflexivity
        | intros ->; repeat split; intros; try discriminate;
          match goal with
          | H : Done _ _ = Done _ _ |- _ => inversion H; subst
          end;
          eexists; split; reflexivity ].
    - split; [reflexivity | intros _; repeat split; intros; discriminate].
    - split; [reflexivity | intros _; repeat split; intros; discriminate]. }
  split; [|split; [exact (proj1 Hcases)|split; [exact (proj2 Hcases)|]]].
  - unfold final, isFinalAttemptOf.
    destruct second, (isFlaky ri); simpl; split; auto;
      intros [H|H]; discriminate.
  - intros pre f post acc w0 failed w1 Hpre Hp c wx Hx.
    assert (Ha : attemptEach env second (pre ++ f :: post) acc w0 = Exited c wx)
      by (exact (attemptEach_exits env second pre f post acc w0 Hpre Hp Hx)).
    split; [exact Ha|]. split.
    + intros -> ->. unfold runTestFiles, bind. rewrite Ha. reflexivity.
    + intros -> -> files w00 Hci H1. unfold runTestFiles. unfold bind at 1.
      rewrite H1, Hci. simpl. unfold bind. rewrite Ha. reflexivity.
Qed.

Lemma final_failure_exits_in_parallel_ci_witness :
  (exists wx,
     runServerAndTests (Sample.env false true) false
       (Sample.during Sample.noStart) = Exited 1%Z wx) /\
  (exists wx,
     runTestFiles (Sample.env false true) ["nostart.ts"; "pass.ts"] initialWorld
       = Exited 1%Z wx /\
     builtFiles (trace wx) = ["nostart.ts"]).
Proof.
  split.
  - assert (Hd : declaredRun Sample.noStart Sample.strict
                   (Sample.crashingHook Sample.bootError Sample.boom)
                   Sample.quietHook)
      by (repeat split).
    destruct (@final_failure_exits_in_parallel_ci (Sample.env false true)
                false (Sample.during Sample.noStart) _ _ _ _
                eq_refl eq_refl Hd)
      as [_ [_ [H _]]].
    destruct (proj1 (H eq_refl)
                (finalWorld
                   (runServerAndTests (withoutParallelCI (Sample.env false true))
                      false (Sample.during Sample.noStart))))
      as [wx [Hx _]]; [vm_compute; reflexivity|].
    exists wx. exact Hx.
  - set (env := Sample.env false true).
    set (w := finalWorld (prepare env "nostart.ts" initialWorld)).
    set (t := Sample.declareRun Sample.strict
                (Sample.crashingHook Sample.bootError Sample.boom)
                Sample.quietHook Sample.quietAfter [Sample.passingCase "one"]
                (freshTestInfo "nostart.ts")).
    assert (Hc : currentTest w = Some t) by (vm_compute; reflexivity).
    assert (Hd : declaredRun t Sample.strict
                   (Sample.crashingHook Sample.bootError Sample.boom)
                   Sample.quietHook)
      by (repeat split).
    assert (Hp : prepare env "nostart.ts" initialWorld = Done tt w)
      by (vm_compute; reflexivity).
    assert (Hx : runServerAndTests env false w
                 = Exited 1%Z (finalWorld (runServerAndTests env false w)))
      by (vm_compute; reflexivity).
    destruct (@final_failure_exits_in_parallel_ci env false w _ _ _ _
                eq_refl Hc Hd)
      as [_ [_ [_ H]]].
    destruct (H [] "nostart.ts" ["pass.ts"] [] initialWorld [] initialWorld
                eq_refl Hp _ _ Hx) as [_ [Hrun _]].
    eexists. split; [exact (Hrun eq_refl eq_refl)|].
    vm_compute. reflexivity.
Defined.

(** ** Containment of file failures *)

Lemma accounted_contained w o : Accounted w o -> Contained o.
Proof. destruct o; simpl; auto. Qed.

Lemma runCase_accounted env ri after final c w :
  (forall b l, snd (after b l) = None) ->
  exists b w' evs,
    runCase env ri after final c w = Done b w' /\
    trace w' = trace w ++ evs /\
    (b = false -> existsb isLogFail evs = true).
Proof.
  intros Hq. rewrite runCase_eq. cbv zeta. rewrite Hq.
  destruct (truthy _); [|destruct (hasFailEntries _ _)];
    do 3 eexists; (split; [reflexivity|]); cbn [trace];
    rewrite <- ?app_assoc; (split; [reflexivity|]).
  - intros _. unfold caseEvents. simpl. reflexivity.
  - intros _. unfold caseEvents. simpl. reflexivity.
  - discriminate.
Qed.

Lemma runTestsLoop_accounted env ri after final cases :
  (forall b l, snd (after b l) = None) ->
  forall w, exists b w' evs,
    runTestsLoop env ri after final cases w = Done b w' /\
    trace w' = trace w ++ evs /\
    (b = false -> existsb isLogFail evs = true).
Proof.
  intros Hq. induction cases as [|c rest IH]; intros w; cbn [runTestsLoop].
  - exists true, w, []. rewrite app_nil_r. repeat split. discriminate.
  - destruct (@runCase_accounted env ri after final c w Hq)
      as [b [w1 [evs1 [Hc [Ht Hf]]]]].
    unfold bind. rewrite Hc. destruct b.
    + destruct (IH w1) as [b2 [w2 [evs2 [Hl [Ht2 Hf2]]]]].
      exists b2, w2, (evs1 ++ evs2). split; [exact Hl|]. split.
      * rewrite Ht2, Ht, app_assoc. reflexivity.
      * intros Hb. rewrite existsb_app, (Hf2 Hb). apply orb_true_r.
    + exists false, w1, evs1. repeat split; auto.
Qed.

Lemma runTests_accounted env t final w :
  quietHooks t -> Accounted w (runTests env t final w).
Proof.
  intros [Hq _]. unfold runTests, bind, assertDefined.
  destruct (runInfo t) as [ri|]; [|reflexivity].
  destruct (afterEach t) as [after|] eqn:Ha; [|reflexivity].
  destruct (tests t) as [cases|]; [|reflexivity].
  destruct (@runTestsLoop_accounted env ri after final cases (Hq after eq_refl) w)
    as [b [w' [evs [Hl [Ht Hf]]]]].
  unfold ret. rewrite Hl. simpl. eauto.
Qed.

Lemma failedOutcome_accounted env final w0 w w' evs :
  trace w' = trace w0 ++ evs ->
  existsb isLogFail evs = true ->
  Accounted w0 (failedOutcome env final w w').
Proof.
  intros Ht Hl. unfold failedOutcome.
  destruct (final && isParallelCI env); simpl; eauto.
Qed.

Lemma logFailureEvents_logged err why final :
  existsb isLogFail (logFailureEvents err why final) = true.
Proof. reflexivity. Qed.

Lemma terminateAndReport_accounted env stop final ok w0 w evs0 :
  (forall l, snd (stop l) = None) ->
  trace w = trace w0 ++ evs0 ->
  (ok = false -> existsb isLogFail evs0 = true) ->
  Accounted w0 (terminateAndReport env stop final ok w).
Proof.
  intros Hq Ht Hf. rewrite terminateAndReport_eq. cbv zeta. rewrite Hq.
  destruct ok;
    [destruct (hasFailEntries true (fst (stop (logEntries w)))
               && negb (isWindows env))|].
  - eapply failedOutcome_accounted.
    + unfold withLogs, withTrace. cbn [trace]. rewrite Ht.
      rewrite <- !app_assoc. reflexivity.
    + rewrite !existsb_app, logFailureEvents_logged.
      rewrite orb_true_r. reflexivity.
  - simpl. eexists. split; [|discriminate].
    rewrite Ht, <- !app_assoc. reflexivity.
  - eapply failedOutcome_accounted.
    + unfold withLogs, withTrace. cbn [trace]. rewrite Ht.
      rewrite <- !app_assoc. reflexivity.
    + rewrite existsb_app, (Hf eq_refl). reflexivity.
Qed.

Lemma runServerAndTests_accounted env second w :
  (forall t, currentTest w = Some t -> quietHooks t) ->
  Accounted w (runServerAndTests env second w).
Proof.
  intros Hq.
  destruct (currentTest w) as [t|] eqn:Hc;
    [|unfold runServerAndTests, getCurrentTest, bind; rewrite Hc; reflexivity].
  specialize (Hq t eq_refl).
  destruct (skipped t) as [s|] eqn:Hs.
  { rewrite (runServerAndTests_skipped env second w Hc Hs).
    destruct (isDefined (runInfo t)); [reflexivity|].
    destruct (isDefined (tests t)); [reflexivity|].
    simpl. eexists. split; [reflexivity|discriminate]. }
  destruct (runInfo t) as [ri|] eqn:Hr;
    [|unfold runServerAndTests, getCurrentTest, bind; rewrite Hc; simpl;
      rewrite Hs, Hr; reflexivity].
  destruct (startServer t) as [start|] eqn:Hst;
    [|unfold runServerAndTests, getCurrentTest, bind; rewrite Hc; simpl;
      rewrite Hs, Hr, Hst; reflexivity].
  destruct (terminateServer t) as [stop|] eqn:Hsp;
    [|unfold runServerAndTests, getCurrentTest, bind; rewrite Hc; simpl;
      rewrite Hs, Hr, Hst, Hsp; reflexivity].
  assert (Hd : declaredRun t ri start stop) by (repeat split; assumption).
  rewrite (runServerAndTests_running env second w Hc Hd). cbv zeta.
  rewrite callHook_eq. cbv zeta.
  destruct (snd (start (logEntries (pageOpened t w)))) as [err|].
  - rewrite startServerFailed_eq. cbv zeta.
    eapply failedOutcome_accounted.
    + unfold withTrace, pageOpened. cbn [trace]. rewrite <- !app_assoc.
      reflexivity.
    + rewrite !existsb_app, logFailureEvents_logged.
      rewrite orb_true_r. reflexivity.
  - unfold bind.
    match goal with
    | |- Accounted _ (match runTests ?e ?t' ?f ?w1 with _ => _ end) =>
        pose proof (@runTests_accounted e t' f w1) as Hrt;
        destruct (runTests e t' f w1) as [ok w2|e2 w2|k w2|w2] eqn:Ert
    end.
    + assert (Hqt : quietHooks (setPage t ThePage)) by exact Hq.
      specialize (Hrt Hqt). simpl in Hrt.
      destruct Hrt as [evs [Ht Hf]].
      eapply terminateAndReport_accounted.
      * exact (proj2 Hq stop Hsp).
      * rewrite Ht. unfold pageOpened. cbn [trace].
        rewrite <- !app_assoc. reflexivity.
      * intros Hok. rewrite !existsb_app, (Hf Hok).
        rewrite !orb_true_r. reflexivity.
    + exact (Hrt Hq).
    + exact (Hrt Hq).
    + exact (Hrt Hq).
Qed.

Lemma prepare_eq env f w :
  (forall js tr, importError (importModule env js tr) = None) ->
  prepare env f w =
  let js := replace ".ts" ".mjs" f in
  let tr := trace w ++ [EvBuildTs f js; EvSetCurrentTest (Some f); EvImport js] in
  if endsWith f ".ts" && endsWith js ".mjs" then
    Done tt (mkWorld (logEntries w)
                     (Some (declares (importModule env js tr) (freshTestInfo f)))
                     (armedTimers w) (tr ++ [EvCleanBuild]))
  else Threw (JsErr InvariantError "[Bug] assertion failed") w.
Proof.
  intros Hi. unfold prepare, assert. cbv zeta.
  destruct (endsWith f ".ts"); [|reflexivity].
  destruct (endsWith (replace ".ts" ".mjs" f) ".mjs"); [|reflexivity].
  unfold bind, ret, buildTs, setCurrentTest, bind, emit, setCurrent,
    tryFinally, importFile, bind, emit, cleanBuild. simpl.
  rewrite <- !app_assoc. simpl. rewrite Hi. simpl.
  rewrite <- !app_assoc. reflexivity.
Qed.

Lemma buildAndTest_accounted env f second w :
  wellBehaved env -> Accounted w (buildAndTest env f second w).
Proof.
  intros Hw. rewrite buildAndTest_prepare. unfold bind at 1.
  rewrite prepare_eq by (intros js tr; exact (proj1 (Hw js tr))). cbv zeta.
  destruct (endsWith f ".ts" && endsWith (replace ".ts" ".mjs" f) ".mjs");
    [|reflexivity].
  set (js := replace ".ts" ".mjs" f).
  set (tr := trace w ++ [EvBuildTs f js; EvSetCurrentTest (Some f); EvImport js]).
  set (w1 := mkWorld (logEntries w)
                     (Some (declares (importModule env js tr) (freshTestInfo f)))
                     (armedTimers w) (tr ++ [EvCleanBuild])).
  assert (Hr : Accounted w1 (runServerAndTests env second w1)).
  { apply runServerAndTests_accounted. intros t Ht. simpl in Ht.
    inversion Ht; subst. exact (proj2 (Hw js tr) f). }
  unfold bind at 1.
  destruct (runServerAndTests env second w1) as [b w2|e w2|k w2|w2];
    simpl in Hr; simpl; auto.
  destruct Hr as [evs [Ht Hf]].
  exists ([EvBuildTs f js; EvSetCurrentTest (Some f); EvImport js; EvCleanBuild]
            ++ evs ++ [EvSetCurrentTest None]).
  split.
  - rewrite Ht. unfold w1, tr. cbn [trace]. rewrite <- !app_assoc. reflexivity.
  - intros Hb. rewrite !existsb_app, (Hf Hb).
    rewrite orb_true_l, orb_true_r. reflexivity.
Qed.

Lemma attemptEach_contained env second files :
  wellBehaved env ->
  forall acc w, Contained (attemptEach env second files acc w).
Proof.
  intros Hw. induction files as [|f rest IH]; intros acc w; simpl; [exact I|].
  unfold bind.
  pose proof (accounted_contained _ _ (buildAndTest_accounted f second w Hw))
    as Hc.
  destruct (buildAndTest env f second w) as [ok w1|e w1|k w1|w1];
    simpl in Hc; simpl; auto.
Qed.

Lemma runTestFiles_contained env files w :
  wellBehaved env -> Contained (runTestFiles env files w).
Proof.
  intros Hw. unfold runTestFiles. unfold bind at 1.
  pose proof (attemptEach_contained false files Hw [] w) as H1.
  destruct (attemptEach env false files [] w) as [failed w1|e w1|k w1|w1];
    simpl in H1; simpl; auto.
  destruct (isCI env); simpl; [|exact I].
  unfold bind.
  pose proof (attemptEach_contained true failed Hw [] w1) as H2.
  destruct (attemptEach env true failed [] w1); simpl in H2; simpl; auto.
Qed.

Lemma runTests_declared env t ri after cases final w :
  runInfo t = Some ri ->
  afterEach t = Some after ->
  tests t = Some cases ->
  runTests env t final w = runTestsLoop env ri after final cases w.
Proof.
  intros Hr Ha Ht. unfold runTests, bind, assertDefined.
  rewrite Hr, Ha, Ht. reflexivity.
Qed.

(** A start hook that throws: the file is marked failed and the reason
    logged. *)
Lemma start_error_converted env second w t ri start stop err w1 :
  currentTest w = Some t ->
  declaredRun t ri start stop ->
  callHook EvStartServer start (pageOpened t w) = Threw err w1 ->
  FailedWith w startReason (isFinalAttemptOf second ri)
             (runServerAndTests env second w).
Proof.
  intros Hc Hd Hs.
  rewrite (runServerAndTests_running env second w Hc Hd). cbv zeta.
  rewrite Hs, startServerFailed_eq. cbv zeta.
  split; [apply failedOutcome_failed|].
  rewrite failedOutcome_trace by reflexivity.
  rewrite callHook_eq in Hs. cbv zeta in Hs.
  destruct (snd (start (logEntries (pageOpened t w)))); [|discriminate].
  inversion Hs; subst. unfold withTrace, withLogs, pageOpened, logFailureEvents.
  norm_trace.
  exists [EvNewPage; EvStartServer]. eexists. reflexivity.
Qed.

(** A case that fails, with a truthy value when it threw, after cases
    that passed: the file is marked failed and the reason logged. *)
Lemma case_failure_converted env second w t ri start stop after
      pre c post w1 w2 :
  currentTest w = Some t ->
  declaredRun t ri start stop ->
  afterEach t = Some after ->
  tests t = Some (pre ++ c :: post) ->
  callHook EvStartServer start (pageOpened t w) = Done tt w1 ->
  runTestsLoop env ri after (isFinalAttemptOf second ri) pre w1 = Done true w2 ->
  let ms := testFunctionTimeout ri in
  let ran := testFn c (logEntries w2 ++ [caseMarker c]) in
  let threw := caseThrew env ms (snd ran) in
  let hooked := after threw (fst ran) in
  throwsTruthy (snd ran) = true ->
  snd hooked = None ->
  snd (stop []) = None ->
  threw = true \/
  hasFailEntries (negb (doNotFailOnWarning ri)) (fst hooked) = true ->
  FailedWith w2 (caseFailureReason ri c (caught env ms (snd ran)))
             (isFinalAttemptOf second ri)
             (runServerAndTests env second w).
Proof.
  intros Hc Hd Ha Ht Hs Hpre ms ran threw hooked Htr Hq Hstop Hfail.
  set (final := isFinalAttemptOf second ri).
  assert (Hri : runInfo t = Some ri) by (destruct Hd as (_ & Hr & _); exact Hr).
  pose proof (runCase_eq env ri after final c w2) as E. cbv zeta in E.
  fold ms ran in E. unfold caseFailureReason.
  rewrite (caught_truthy env ms _ Htr). rewrite (caught_truthy env ms _ Htr) in E.
  fold threw hooked in E. rewrite Hq in E.
  assert (Hloop : exists w3,
             runTests env (setPage t ThePage) final w1 = Done false w3 /\
             logEntries w3 = [] /\
             exists pre', trace w3 =
               trace w2 ++ pre' ++
               [EvLogFail (if threw then threwReason (testDesc c)
                           else logDetectedReason
                                  (negb (doNotFailOnWarning ri)) (testDesc c))
                          final]
               ++ (if threw then [EvLogError (caught env ms (snd ran))] else [])
               ++ [EvLogErrorsAndWarnings; EvFlushLogs]).
  { rewrite (@runTests_declared env (setPage t ThePage) ri after
               (pre ++ c :: post) final w1 Hri Ha Ht).
    rewrite runTestsLoop_app. fold final in Hpre. rewrite Hpre.
    cbn [runTestsLoop]. unfold bind. rewrite E.
    destruct threw.
    - eexists. split; [reflexivity|]. split; [reflexivity|].
      cbn [trace]. exists (caseEvents ms c true).
      rewrite <- !app_assoc. reflexivity.
    - destruct Hfail as [Hfail|Hfail]; [discriminate|]. rewrite Hfail.
      eexists. split; [reflexivity|]. split; [reflexivity|].
      cbn [trace]. exists (caseEvents ms c false).
      rewrite <- !app_assoc. reflexivity. }
  destruct Hloop as [w3 [Hrun [Hl3 [pre' Ht3]]]].
  rewrite (running_after_start env second w Hc Hd Hs Hrun).
  rewrite terminateAndReport_eq. cbv zeta. rewrite Hl3, Hstop. fold final.
  split; [apply failedOutcome_failed|].
  rewrite failedOutcome_trace by reflexivity.
  unfold withTrace, withLogs. cbn [trace]. rewrite Ht3.
  exists pre'. rewrite <- !app_assoc. cbn [app]. eexists. reflexivity.
Qed.

(** A last case that throws a falsy value while the log holds no failing
    entry, after cases that passed: the file passes, a pass is logged and
    no failure. *)
Lemma falsy_throw_not_converted env second w t ri start stop after
      pre c w1 w2 :
  currentTest w = Some t ->
  declaredRun t ri start stop ->
  afterEach t = Some after ->
  tests t = Some (pre ++ [c]) ->
  callHook EvStartServer start (pageOpened t w) = Done tt w1 ->
  runTestsLoop env ri after (isFinalAttemptOf second ri) pre w1 = Done true w2 ->
  let ms := testFunctionTimeout ri in
  let ran := testFn c (logEntries w2 ++ [caseMarker c]) in
  let hooked := after false (fst ran) in
  throwsTruthy (snd ran) = false ->
  snd hooked = None ->
  hasFailEntries (negb (doNotFailOnWarning ri)) (fst hooked) = false ->
  snd (stop []) = None ->
  hasFailEntries true (fst (stop [])) = false ->
  caseThrew env ms (snd ran) = true /\
  exists w',
    runServerAndTests env second w = Done true w' /\
    trace w' = trace w2 ++ caseEvents ms c false
                 ++ [EvTerminateServer; EvPageClose; EvLogPass].
Proof.
  intros Hc Hd Ha Ht Hs Hpre ms ran hooked Htr Hq Hclean Hstop Hquiet.
  set (final := isFinalAttemptOf second ri).
  assert (Hri : runInfo t = Some ri) by (destruct Hd as (_ & Hr & _); exact Hr).
  assert (Hfalsy : caseThrew env ms (snd ran) = true /\
                   truthy (caught env ms (snd ran)) = false).
  { destruct (snd ran) as [e|[[|e]|[|e]|]]; simpl in Htr; try discriminate;
      simpl; auto. }
  destruct Hfalsy as [Hthrew Hfalsy]. split; [exact Hthrew|].
  pose proof (runCase_eq env ri after final c w2) as E. cbv zeta in E.
  fold ms ran in E. rewrite Hfalsy in E. fold hooked in E.
  rewrite Hq, Hclean in E.
  assert (Hrun : runTests env (setPage t ThePage) final w1
                 = Done true
                     (mkWorld [] (currentTest w2)
                        (timersAfter ms (snd ran) (armedTimers w2))
                        (trace w2 ++ caseEvents ms c false))).
  { rewrite (@runTests_declared env (setPage t ThePage) ri after
               (pre ++ [c]) final w1 Hri Ha Ht).
    rewrite runTestsLoop_app. fold final in Hpre. rewrite Hpre.
    cbn [runTestsLoop]. unfold bind. rewrite E. reflexivity. }
  rewrite (running_after_start env second w Hc Hd Hs Hrun).
  rewrite terminateAndReport_eq. cbv zeta. cbn [logEntries].
  rewrite Hstop, Hquiet. cbn [andb].
  eexists. split; [reflexivity|].
  unfold withTrace, withLogs. cbn [trace]. rewrite <- !app_assoc. reflexivity.
Qed.

(** C9, where the code departs from it.  When the collaborators outside
    the failure taxonomy behave (the import, the after-each hook and the
    stop hook return normally), no failure of a test file escapes as a
    thrown error: an attempt returns pass or fail, with a failure logged
    whenever it returns fail, or ends the process with status 1, or
    raises a usage or invariant error; so does the scheduler; and
    [runAll] raises, besides those, only the aggregate error.  A start
    hook that throws is converted into a failed file with its reason
    logged, and so is a case that throws a truthy value, times out or
    leaves a failing entry in the log.  A case that throws a falsy value
    is not: with no failing entry in the log the file passes, a pass is
    logged and no reason. *)
Theorem file_failures_contained env :
  wellBehaved env ->
  (* nothing escapes *)
  ((forall f second w, Accounted w (buildAndTest env f second w)) /\
   (forall files w, Contained (runTestFiles env files w)) /\
   (forall w,
      match runAll env w with
      | Done _ _ => True
      | Threw e _ =>
          isHarnessError e = true \/
          exists failed, failed <> [] /\ e = aggregateError failed
      | Exited c _ => c = 1%Z
      | Hangs _ => False
      end)) /\
  (* a server-start error *)
  (forall second w t ri start stop err w1,
     currentTest w = Some t ->
     declaredRun t ri start stop ->
     callHook EvStartServer start (pageOpened t w) = Threw err w1 ->
     FailedWith w startReason (isFinalAttemptOf second ri)
                (runServerAndTests env second w)) /\
  (* a case that throws a truthy value, times out, or fails by the log *)
  (forall second w t ri start stop after pre c post w1 w2,
     currentTest w = Some t ->
     declaredRun t ri start stop ->
     afterEach t = Some after ->
     tests t = Some (pre ++ c :: post) ->
     callHook EvStartServer start (pageOpened t w) = Done tt w1 ->
     runTestsLoop env ri after (isFinalAttemptOf second ri) pre w1
       = Done true w2 ->
     let ms := testFunctionTimeout ri in
     let ran := testFn c (logEntries w2 ++ [caseMarker c]) in
     let threw := caseThrew env ms (snd ran) in
     let hooked := after threw (fst ran) in
     throwsTruthy (snd ran) = true ->
     snd hooked = None ->
     snd (stop []) = None ->
     threw = true \/
     hasFailEntries (negb (doNotFailOnWarning ri)) (fst hooked) = true ->
     FailedWith w2 (caseFailureReason ri c (caught env ms (snd ran)))
                (isFinalAttemptOf second ri)
                (runServerAndTests env second w)) /\
  (* a case that throws a falsy value *)
  (forall second w t ri start stop after pre c w1 w2,
     currentTest w = Some t ->
     declaredRun t ri start stop ->
     afterEach t = Some after ->
     tests t = Some (pre ++ [c]) ->
     callHook EvStartServer start (pageOpened t w) = Done tt w1 ->
     runTestsLoop env ri after (isFinalAttemptOf second ri) pre w1
       = Done true w2 ->
     let ms := testFunctionTimeout ri in
     let ran := testFn c (logEntries w2 ++ [caseMarker c]) in
     let hooked := after false (fst ran) in
     throwsTruthy (snd ran) = false ->
     snd hooked = None ->
     hasFailEntries (negb (doNotFailOnWarning ri)) (fst hooked) = false ->
     snd (stop []) = None ->
     hasFailEntries true (fst (stop [])) = false ->
     caseThrew env ms (snd ran) = true /\
     exists w',
       runServerAndTests env second w = Done true w' /\
       trace w' = trace w2 ++ caseEvents ms c false
                    ++ [EvTerminateServer; EvPageClose; EvLogPass]).
Proof.
  intros Hw. split; [split; [|split]|split; [|split]].
  - intros f second w. apply buildAndTest_accounted. exact Hw.
  - intros files w. apply runTestFiles_contained. exact Hw.
  - intros w. unfold runAll. unfold bind at 1 2. unfold emit at 1 2.
    unfold bind at 1.
    match goal with
    | |- context [runTestFiles env ?fs ?w1] =>
        pose proof (runTestFiles_contained fs w1 Hw) as Hc;
        destruct (runTestFiles env fs w1) as [failed w2|e w2|k w2|w2]
    end; simpl in Hc; auto.
    unfold bind at 1. unfold emit at 1. unfold bind at 1.
    destruct failed as [|f0 failed]; simpl.
    + destruct (hasFail env _); simpl; auto.
    + destruct (hasFail env _); simpl; auto.
      right. exists (f0 :: failed). split; [discriminate|reflexivity].
  - intros second w t ri start stop err w1. apply start_error_converted.
  - intros second w t ri start stop after pre c post w1 w2.
    apply case_failure_converted.
  - intros second w t ri start stop after pre c w1 w2.
    apply falsy_throw_not_converted.
Qed.

Lemma sample_wellBehaved ci parallel : wellBehaved (Sample.env ci parallel).
Proof.
  intros f tr. unfold Sample.env, importModule, Sample.modules.
  destruct (f =? "pass.mjs");
    [|destruct (f =? "flaky.mjs");
      [|destruct (f =? "nostart.mjs"); [|destruct (f =? "skip.mjs")]]];
    (split; [reflexivity|]); intros g; split; intros h Hh; simpl in Hh;
    inversion Hh; subst; intros; reflexivity.
Qed.

Lemma file_failures_contained_witness :
  let env := Sample.env false false in
  (* the server does not start: failed, with the reason logged *)
  FailedWith (Sample.during Sample.noStart) startReason true
    (runServerAndTests env false (Sample.during Sample.noStart)) /\
  (* the second case throws an error: failed, with the reason logged *)
  FailedWith
    (finalWorld
       (runTestsLoop env Sample.strict Sample.quietAfter true
          [Sample.passingCase "one"]
          (Sample.started Sample.quietHook Sample.throwsSecond)))
    (threwReason "two") true
    (runServerAndTests env false (Sample.during Sample.throwsSecond)) /\
  (* the only case throws [undefined]: passed, and no failure logged *)
  (exists w',
     runServerAndTests env false (Sample.during Sample.silentThrow)
       = Done true w' /\
     existsb isCaseRun (trace w') = true /\
     existsb isLogFail (trace w') = false) /\
  Contained (runTestFiles env ["nostart.ts"; "other.ts"] initialWorld).
Proof.
  cbv zeta.
  destruct (file_failures_contained (sample_wellBehaved false false))
    as [[_ [Hsched _]] [Hstart [Hcase Hfalsy]]].
  split; [|split; [|split]].
  - assert (Hd : declaredRun Sample.noStart Sample.strict
                   (Sample.crashingHook Sample.bootError Sample.boom)
                   Sample.quietHook)
      by (repeat split).
    assert (Hs : callHook EvStartServer
                   (Sample.crashingHook Sample.bootError Sample.boom)
                   (pageOpened Sample.noStart (Sample.during Sample.noStart))
                 = Threw Sample.boom
                     (Sample.started
                        (Sample.crashingHook Sample.bootError Sample.boom)
                        Sample.noStart))
      by (vm_compute; reflexivity).
    exact (Hstart false (Sample.during Sample.noStart) Sample.noStart _ _ _
             _ _ eq_refl Hd Hs).
  - assert (Hd : declaredRun Sample.throwsSecond Sample.strict
                   Sample.quietHook Sample.quietHook)
      by (repeat split).
    assert (Hs : callHook EvStartServer Sample.quietHook
                   (pageOpened Sample.throwsSecond
                      (Sample.during Sample.throwsSecond))
                 = Done tt
                     (Sample.started Sample.quietHook Sample.throwsSecond))
      by (vm_compute; reflexivity).
    assert (Hp : runTestsLoop (Sample.env false false) Sample.strict
                   Sample.quietAfter (isFinalAttemptOf false Sample.strict)
                   [Sample.passingCase "one"]
                   (Sample.started Sample.quietHook Sample.throwsSecond)
                 = Done true
                     (finalWorld
                        (runTestsLoop (Sample.env false false) Sample.strict
                           Sample.quietAfter true [Sample.passingCase "one"]
                           (Sample.started Sample.quietHook
                              Sample.throwsSecond))))
      by (vm_compute; reflexivity).
    exact (Hcase false (Sample.during Sample.throwsSecond) Sample.throwsSecond
             Sample.strict Sample.quietHook Sample.quietHook Sample.quietAfter
             [Sample.passingCase "one"] (Sample.throwingCase "two" Sample.boom)
             [Sample.passingCase "three"] _ _
             eq_refl Hd eq_refl eq_refl Hs Hp eq_refl eq_refl eq_refl
             (or_introl eq_refl)).
  - assert (Hd : declaredRun Sample.silentThrow Sample.strict
                   Sample.quietHook Sample.quietHook)
      by (repeat split).
    assert (Hs : callHook EvStartServer Sample.quietHook
                   (pageOpened Sample.silentThrow
                      (Sample.during Sample.silentThrow))
                 = Done tt
                     (Sample.started Sample.quietHook Sample.silentThrow))
      by (vm_compute; reflexivity).
    destruct (Hfalsy false (Sample.during Sample.silentThrow)
                Sample.silentThrow Sample.strict Sample.quietHook
                Sample.quietHook Sample.quietAfter []
                (Sample.throwingCase "one" JsUndefined) _ _
                eq_refl Hd eq_refl eq_refl Hs eq_refl
                eq_refl eq_refl eq_refl eq_refl eq_refl)
      as [_ [w' [Hr Ht]]].
    exists w'. split; [exact Hr|]. rewrite Ht. vm_compute. auto.
  - exact (Hsched ["nostart.ts"; "other.ts"] initialWorld).
Defined.

(** * Further properties of [runAll.ts] *)

(** ** [runAll] *)

(** X1.  [runAll] closes the browser exactly when the scheduler returns,
    and only then reports: it returns when no file failed and no failure
    was logged, throws the aggregate error when files failed and a
    failure was logged, and raises an invariant error when the list of
    failed files and the failure flag disagree.  When the scheduler
    throws or ends the process, [runAll] ends the same way in the same
    world: [browser.close()] is not reached. *)
Theorem runAll_verdict env w :
  let w1 := withTrace w [EvLoadConfig; EvGetBrowser] in
  match runTestFiles env (findTestFiles env) w1 with
  | Done failed w2 =>
      let w3 := withTrace w2 [EvBrowserClose] in
      runAll env w =
      match failed, hasFail env (trace w3) with
      | [], false => Done tt w3
      | _ :: _, true => Threw (aggregateError failed) w3
      | _, _ => Threw (JsErr InvariantError "[Bug] assertion failed") w3
      end
  | Threw e w2 => runAll env w = Threw e w2
  | Exited c w2 => runAll env w = Exited c w2
  | Hangs w2 => runAll env w = Hangs w2
  end.
Proof.
  cbv zeta. unfold runAll, bind, emit, withTrace, assert, throw, ret.
  cbn [logEntries currentTest armedTimers trace].
  rewrite <- app_assoc. cbn [app].
  destruct (runTestFiles env (findTestFiles env) _) as [failed w2|e w2|c w2|w2];
    try reflexivity.
  cbn [logEntries currentTest armedTimers trace].
  destruct failed as [|f0 failed]; simpl;
    destruct (hasFail env (trace w2 ++ [EvBrowserClose])); reflexivity.
Qed.

(** ** [buildAndTest]: the import *)

(** X2.  When importing the built module throws, [cleanBuild] is still
    called, the error leaves [buildAndTest] as it is, and nothing of the
    file runs: no page is opened and no hook is called.  The current test
    stays set, and the loop over the files ends with that error: the
    files behind are not attempted. *)
Theorem import_error_propagates env f second w e :
  endsWith f ".ts" = true ->
  endsWith (replace ".ts" ".mjs" f) ".mjs" = true ->
  importError (importModule env (replace ".ts" ".mjs" f) (traceAtImport f w))
    = Some e ->
  exists w',
    buildAndTest env f second w = Threw e w' /\
    trace w' = trace w ++ importEvents f /\
    isDefined (currentTest w') = true /\
    forall rest acc,
      attemptEach env second (f :: rest) acc w = Threw e w'.
Proof.
  intros H1 H2 Hi.
  assert (E : exists w',
             buildAndTest env f second w = Threw e w' /\
             trace w' = trace w ++ importEvents f /\
             isDefined (currentTest w') = true).
  { rewrite buildAndTest_unfold. cbv zeta. rewrite H1, H2. simpl.
    unfold loadAndRun. unfold bind at 1.
    unfold setCurrentTest, bind at 1, emit at 1, setCurrent at 1.
    cbn [logEntries currentTest armedTimers trace].
    unfold bind at 1, tryFinally, importFile, bind at 1, emit at 1.
    cbn [logEntries currentTest armedTimers trace].
    unfold traceAtImport in Hi. cbv zeta in Hi.
    rewrite <- !app_assoc. cbn [app]. rewrite Hi.
    unfold bind, cleanBuild, emit, throw.
    cbn [logEntries currentTest armedTimers trace].
    eexists. split; [reflexivity|]. split; [|reflexivity].
    cbn [trace]. unfold importEvents. cbv zeta.
    rewrite <- !app_assoc. reflexivity. }
  destruct E as [w' [Hb [Ht Hc]]].
  exists w'. repeat split; auto.
  intros rest acc. cbn [attemptEach]. unfold bind. rewrite Hb. reflexivity.
Qed.

Lemma import_error_propagates_witness :
  exists w',
    runTestFiles Sample.brokenEnv ["broken.ts"; "pass.ts"] initialWorld
      = Threw Sample.boom w' /\
    builtFiles (trace w') = ["broken.ts"].
Proof.
  destruct (@import_error_propagates Sample.brokenEnv "broken.ts" false
              initialWorld Sample.boom eq_refl eq_refl eq_refl)
    as [w' [_ [Ht [_ Ha]]]].
  exists w'. split.
  - unfold runTestFiles, bind. rewrite Ha. reflexivity.
  - rewrite Ht. reflexivity.
Defined.

(** ** [buildAndTest]: the name of the built module *)

Lemma str_app_assoc (a b c : string) : ((a ++ b) ++ c = a ++ (b ++ c))%string.
Proof. induction a as [|x a IH]; simpl; [reflexivity|]. rewrite IH. reflexivity. Qed.

Lemma str_length_app (a b : string) :
  String.length (a ++ b) = String.length a + String.length b.
Proof. induction a as [|x a IH]; simpl; [reflexivity|]. rewrite IH. reflexivity. Qed.

Lemma substring_all (s : string) : substring 0 (String.length s) s = s.
Proof. induction s as [|x s IH]; simpl; [reflexivity|]. rewrite IH. reflexivity. Qed.

Lemma substring_suffix (a b : string) :
  substring (String.length a) (String.length b) (a ++ b) = b.
Proof. induction a as [|x a IH]; simpl; [apply substring_all | exact IH]. Qed.

Lemma endsWith_append (a b : string) : endsWith (a ++ b) b = true.
Proof.
  unfold endsWith. rewrite str_length_app.
  replace (String.length a + String.length b - String.length b)
    with (String.length a) by lia.
  rewrite substring_suffix, String.eqb_refl, andb_true_r.
  apply Nat.leb_le. lia.
Qed.

Lemma prefix_split (p s : string) :
  prefix p s = true -> s = (p ++ dropChars (String.length p) s)%string.
Proof.
  revert s. induction p as [|x p IH]; intros s H; [reflexivity|].
  destruct s as [|y s]; simpl in H; [discriminate|].
  destruct (ascii_dec x y) as [->|]; [|discriminate].
  simpl. rewrite <- (IH s H). reflexivity.
Qed.

Lemma replace_final_ts (base : string) :
  onlyFinalTs base ->
  replace ".ts" ".mjs" (base ++ ".ts") = (base ++ ".mjs")%string.
Proof.
  induction base as [|c base IH]; intros Hf; [reflexivity|].
  cbn [append replace].
  destruct (prefix ".ts" (String c (base ++ ".ts"))) eqn:Hp.
  - apply prefix_split in Hp.
    assert (Hb : dropChars (String.length ".ts") (String c (base ++ ".ts"))
                 = EmptyString)
      by (apply (Hf EmptyString); exact Hp).
    rewrite Hb in Hp. apply (f_equal String.length) in Hp.
    simpl in Hp. rewrite str_length_app in Hp. simpl in Hp. lia.
  - rewrite IH; [reflexivity|].
    intros a b H. apply (Hf (String c a) b). simpl. rewrite H. reflexivity.
Qed.

(** X3.  For a test file whose path holds [.ts] only as its extension,
    both assertions on the names pass and the module handed to the build
    step and imported is the path with [.ts] replaced by [.mjs]. *)
Theorem built_module_name env base second w :
  onlyFinalTs base ->
  buildAndTest env (base ++ ".ts") second w =
  loadAndRun env (base ++ ".ts") (base ++ ".mjs") second
    (withTrace w [EvBuildTs (base ++ ".ts") (base ++ ".mjs")]).
Proof.
  intros Hf. rewrite buildAndTest_unfold. cbv zeta.
  rewrite (replace_final_ts Hf), !endsWith_append. reflexivity.
Qed.

Lemma onlyFinalTs_pass : onlyFinalTs "pass".
Proof.
  intros a b H.
  destruct a as [|a0 a]; [discriminate|].
  destruct a as [|a1 a]; [discriminate|].
  destruct a as [|a2 a]; [discriminate|].
  destruct a as [|a3 a]; [discriminate|].
  destruct a as [|a4 a].
  - simpl in H. inversion H. reflexivity.
  - simpl in H. inversion H as [[H0 H1 H2 H3 H4]].
    destruct a as [|a5 a]; [discriminate|].
    destruct a as [|a6 a]; [discriminate|].
    destruct a as [|a7 a]; discriminate.
Qed.

Lemma built_module_name_witness :
  buildAndTest (Sample.env false false) "pass.ts" false initialWorld =
  loadAndRun (Sample.env false false) "pass.ts" "pass.mjs" false
    (withTrace initialWorld [EvBuildTs "pass.ts" "pass.mjs"]).
Proof.
  exact (@built_module_name (Sample.env false false) "pass" false initialWorld
           onlyFinalTs_pass).
Defined.

Lemma dropChars_tail n : forall x rest,
  n <= String.length x ->
  exists a, dropChars n (x ++ rest) = (a ++ rest)%string.
Proof.
  induction n as [|n IH]; intros x rest H.
  - exists x. reflexivity.
  - destruct x as [|c x]; simpl in H; [lia|].
    simpl. apply IH. lia.
Qed.

Lemma replace_keeps_tail pre : forall rest,
  exists a, replace ".ts" ".mjs" (pre ++ ".ts" ++ rest) = (a ++ rest)%string.
Proof.
  induction pre as [|c pre IH]; intros rest.
  - exists ".mjs". destruct rest; reflexivity.
  - cbn [append replace].
    destruct (prefix ".ts" (String c (pre ++ String "." (String "t" (String "s" rest)))))
      eqn:Hp.
    + destruct (@dropChars_tail 3 (String c (pre ++ ".ts")) rest) as [a Ha].
      { simpl. rewrite str_length_app. simpl. lia. }
      assert (E : (String c (pre ++ ".ts") ++ rest
                   = String c (pre ++ String "." (String "t" (String "s" rest))))%string)
        by (simpl; rewrite str_app_assoc; reflexivity).
      rewrite E in Ha. change (String.length ".ts") with 3. rewrite Ha.
      exists (".mjs" ++ a)%string. rewrite str_app_assoc. reflexivity.
    + destruct (IH rest) as [a Ha]. simpl in Ha.
      rewrite Ha. exists (String c a). reflexivity.
Qed.

Lemma string_snoc (y : string) :
  y = EmptyString \/ exists y' c, y = (y' ++ String c EmptyString)%string.
Proof.
  induction y as [|x y IH]; [left; reflexivity|]. right.
  destruct IH as [->|[y' [c ->]]].
  - exists EmptyString, x. reflexivity.
  - exists (String x y'), c. reflexivity.
Qed.

Lemma not_mjs_when_ts (y : string) : endsWith (y ++ ".ts") ".mjs" = false.
Proof.
  destruct (string_snoc y) as [->|[y' [c ->]]]; [reflexivity|].
  rewrite str_app_assoc. unfold endsWith. rewrite str_length_app.
  cbn [append String.length].
  replace (String.length y' + 4 - 4) with (String.length y') by lia.
  replace (substring (String.length y') 4 (y' ++ String c ".ts"))
    with (String c ".ts")
    by (symmetry; apply (substring_suffix y' (String c ".ts"))).
  apply andb_false_iff. right.
  simpl. destruct (Ascii.eqb c "."); reflexivity.
Qed.

(** X4.  A test file whose path holds [.ts] before its extension (a
    directory [my.tsx/], a name [a.ts.ts]) is refused: [replace] rewrites
    the first [.ts], the rewritten name does not end in [.mjs], and
    [buildAndTest] raises an invariant error before anything is built. *)
Theorem inner_ts_is_refused env pre post second w :
  buildAndTest env (pre ++ ".ts" ++ post ++ ".ts") second w =
  Threw (JsErr InvariantError "[Bug] assertion failed") w.
Proof.
  rewrite buildAndTest_unfold. cbv zeta.
  destruct (replace_keeps_tail pre (post ++ ".ts")) as [a Ha].
  rewrite Ha, <- (str_app_assoc a post ".ts"), not_mjs_when_ts.
  rewrite andb_false_r. reflexivity.
Qed.

(** ** [runServerAndTests]: errors that are not caught *)

(** X5.  A file that called [run()] without registering a case (or
    without an after-each hook) fails the assertions of [runTests] only
    after the page was opened and the server started: the invariant error
    leaves [runServerAndTests] there, with the server still running and
    the page open. *)
Theorem run_without_cases env second w t ri start stop w1 :
  currentTest w = Some t ->
  declaredRun t ri start stop ->
  tests t = None \/ afterEach t = None ->
  callHook EvStartServer start (pageOpened t w) = Done tt w1 ->
  runServerAndTests env second w =
    Threw (JsErr InvariantError "[Bug] assertion failed") w1 /\
  trace w1 = trace w ++ [EvNewPage; EvStartServer].
Proof.
  intros Hc Hd Hn Hs. split.
  - rewrite (runServerAndTests_running env second w Hc Hd). cbv zeta.
    rewrite Hs. unfold bind at 1, runTests, bind, assertDefined.
    cbn [runInfo afterEach tests setPage].
    destruct Hd as (_ & Hr & _). rewrite Hr.
    destruct Hn as [Hn|Hn]; rewrite Hn; [destruct (afterEach t)|]; reflexivity.
  - rewrite callHook_eq in Hs. cbv zeta in Hs.
    destruct (snd (start (logEntries (pageOpened t w)))); [discriminate|].
    inversion Hs; subst. unfold pageOpened. cbn [trace].
    rewrite <- app_assoc. reflexivity.
Qed.

Lemma run_without_cases_witness :
  trace (finalWorld (runServerAndTests (Sample.env false false) false
                       (Sample.during Sample.runOnly)))
  = [EvNewPage; EvStartServer].
Proof.
  assert (Hs : callHook EvStartServer Sample.quietHook
                 (pageOpened Sample.runOnly (Sample.during Sample.runOnly))
               = Done tt (Sample.started Sample.quietHook Sample.runOnly))
    by (vm_compute; reflexivity).
  assert (Hd : declaredRun Sample.runOnly Sample.strict Sample.quietHook
                 Sample.quietHook)
    by (repeat split).
  destruct (@run_without_cases (Sample.env false false) false
              (Sample.during Sample.runOnly) _ _ _ _ _ eq_refl Hd
              (or_introl eq_refl) Hs) as [Hr Ht].
  rewrite Hr. exact Ht.
Defined.

(** X6.  An after-each hook that throws is caught nowhere: the error
    leaves the loop, [runTests] and [runServerAndTests] from the
    iteration in which it was raised.  No failure is logged for the case,
    the cases behind it do not run, the stop hook is not called and the
    page is not closed. *)
Theorem after_each_throw_escapes env second w t ri start stop after
        pre c post w1 w2 e :
  currentTest w = Some t ->
  declaredRun t ri start stop ->
  afterEach t = Some after ->
  tests t = Some (pre ++ c :: post) ->
  callHook EvStartServer start (pageOpened t w) = Done tt w1 ->
  runTestsLoop env ri after (isFinalAttemptOf second ri) pre w1 = Done true w2 ->
  let ms := testFunctionTimeout ri in
  let ran := testFn c (logEntries w2 ++ [caseMarker c]) in
  let failed := truthy (caught env ms (snd ran)) in
  snd (after failed (fst ran)) = Some e ->
  exists w3,
    runServerAndTests env second w = Threw e w3 /\
    trace w3 = trace w2 ++ caseEvents ms c failed /\
    logEntries w3 = fst (after failed (fst ran)).
Proof.
  intros Hc Hd Ha Ht Hs Hpre ms ran failed He.
  rewrite (runServerAndTests_running env second w Hc Hd). cbv zeta.
  rewrite Hs. unfold bind at 1, runTests, bind at 1 2 3, assertDefined.
  cbn [runInfo afterEach tests setPage].
  destruct Hd as (_ & Hr & _). rewrite Hr, Ha, Ht. unfold ret.
  rewrite runTestsLoop_app, Hpre. cbn [runTestsLoop]. unfold bind at 1.
  rewrite runCase_eq. cbv zeta. fold ms ran failed. rewrite He.
  eexists. split; [reflexivity|]. split; reflexivity.
Qed.

Lemma after_each_throw_escapes_witness :
  exists w3,
    runServerAndTests (Sample.env false false) false
      (Sample.during Sample.afterCrash) = Threw Sample.boom w3 /\
    existsb isStop (trace w3) = false /\
    existsb isPageClose (trace w3) = false /\
    progressLines (trace w3) = ["[test] one"; "[test] two"].
Proof.
  set (t := Sample.afterCrash).
  set (env := Sample.env false false).
  assert (Hs : callHook EvStartServer Sample.quietHook
                 (pageOpened t (Sample.during t))
               = Done tt (Sample.started Sample.quietHook t))
    by (vm_compute; reflexivity).
  assert (Hd : declaredRun t Sample.strict Sample.quietHook Sample.quietHook)
    by (repeat split).
  assert (Hp : runTestsLoop env Sample.strict
                 (fun failed l =>
                    if (2 <=? List.length l)%nat
                    then Sample.crashingAfter failed l
                    else Sample.quietHook l)
                 (isFinalAttemptOf false Sample.strict)
                 [Sample.passingCase "one"] (Sample.started Sample.quietHook t)
               = Done true
                   (finalWorld
                      (runTestsLoop env Sample.strict
                         (fun failed l =>
                            if (2 <=? List.length l)%nat
                            then Sample.crashingAfter failed l
                            else Sample.quietHook l)
                         true [Sample.passingCase "one"]
                         (Sample.started Sample.quietHook t))))
    by (vm_compute; reflexivity).
  destruct (@after_each_throw_escapes env false (Sample.during t) t _ _ _ _
              [Sample.passingCase "one"] _ [Sample.passingCase "three"] _ _
              Sample.boom eq_refl Hd eq_refl eq_refl Hs Hp eq_refl)
    as [w3 [Hr [Ht _]]].
  exists w3. split; [exact Hr|]. rewrite Ht. vm_compute. auto.
Defined.

(** X7.  A stop hook that throws is caught nowhere either: the error
    leaves [runServerAndTests] right after the call, whatever the case
    loop returned.  The page is not closed, neither a pass nor a failure
    is logged for the file, and the log is not cleared. *)
Theorem stop_throw_escapes env second w t ri start stop w1 ok w2 e :
  currentTest w = Some t ->
  declaredRun t ri start stop ->
  callHook EvStartServer start (pageOpened t w) = Done tt w1 ->
  runTests env (setPage t ThePage) (isFinalAttemptOf second ri) w1
    = Done ok w2 ->
  snd (stop (logEntries w2)) = Some e ->
  runServerAndTests env second w =
  Threw e (withTrace (withLogs w2 (fst (stop (logEntries w2))))
                     [EvTerminateServer]).
Proof.
  intros Hc Hd Hs Hr He.
  rewrite (running_after_start env second w Hc Hd Hs Hr).
  rewrite terminateAndReport_eq. cbv zeta. rewrite He. reflexivity.
Qed.

Lemma stop_throw_escapes_witness :
  exists w3,
    runServerAndTests (Sample.env false false) false
      (Sample.during Sample.stopCrash) = Threw Sample.boom w3 /\
    logEntries w3 = [Sample.bootError] /\
    existsb isPageClose (trace w3) = false.
Proof.
  set (t := Sample.stopCrash).
  set (env := Sample.env false false).
  assert (Hs : callHook EvStartServer Sample.quietHook
                 (pageOpened t (Sample.during t))
               = Done tt (Sample.started Sample.quietHook t))
    by (vm_compute; reflexivity).
  assert (Hd : declaredRun t Sample.strict Sample.quietHook
                 (Sample.crashingHook Sample.bootError Sample.boom))
    by (repeat split).
  assert (Hr : runTests env (setPage t ThePage)
                 (isFinalAttemptOf false Sample.strict)
                 (Sample.started Sample.quietHook t)
               = Done true
                   (finalWorld
                      (runTests env (setPage t ThePage) true
                         (Sample.started Sample.quietHook t))))
    by (vm_compute; reflexivity).
  eexists. split.
  - exact (@stop_throw_escapes env false (Sample.during t) t _ _ _ _ _ _
             Sample.boom eq_refl Hd Hs Hr eq_refl).
  - vm_compute. auto.
Defined.

(** ** Files without cases *)

(** X8.  For a file whose list of cases is empty the loop returns [true]
    at once and clears nothing, so the check after the stop hook judges
    everything logged since the file began, the entries of the start hook
    included, and counts warnings even when the file tolerates them
    during its cases: off Windows the file fails as soon as that log
    holds an error or a warning, and passes otherwise. *)
Theorem no_cases_checks_whole_log env second w t ri start stop after :
  currentTest w = Some t ->
  declaredRun t ri start stop ->
  afterEach t = Some after ->
  tests t = Some [] ->
  snd (start (logEntries w)) = None ->
  snd (stop (fst (start (logEntries w)))) = None ->
  let l := fst (stop (fst (start (logEntries w)))) in
  let o := runServerAndTests env second w in
  (exists evs, trace (finalWorld o) = trace w ++ evs /\
               existsb isCaseRun evs = false) /\
  if hasFailEntries true l && negb (isWindows env)
  then FileFailed o
  else exists w', o = Done true w' /\ logEntries w' = [].
Proof.
  intros Hc Hd Ha Ht Hs Hq l o.
  assert (Hs1 : callHook EvStartServer start (pageOpened t w)
                = Done tt (withTrace (withLogs (pageOpened t w)
                                        (fst (start (logEntries w))))
                                     [EvStartServer])).
  { rewrite callHook_eq. cbv zeta. cbn [pageOpened logEntries]. rewrite Hs.
    reflexivity. }
  assert (Hr : runTests env (setPage t ThePage) (isFinalAttemptOf second ri)
                 (withTrace (withLogs (pageOpened t w)
                               (fst (start (logEntries w)))) [EvStartServer])
               = Done true
                   (withTrace (withLogs (pageOpened t w)
                                 (fst (start (logEntries w)))) [EvStartServer])).
  { unfold runTests, bind, assertDefined.
    cbn [runInfo afterEach tests setPage].
    destruct Hd as (_ & Hri & _). rewrite Hri, Ha, Ht. reflexivity. }
  unfold o. rewrite (running_after_start env second w Hc Hd Hs1 Hr).
  rewrite terminateAndReport_eq. cbv zeta.
  cbn [withTrace withLogs logEntries]. rewrite Hq. fold l.
  destruct (hasFailEntries true l && negb (isWindows env)).
  - split; [|apply failedOutcome_failed].
    rewrite failedOutcome_trace by reflexivity.
    unfold withTrace, withLogs, pageOpened.
    cbn [trace logEntries currentTest armedTimers]. rewrite <- !app_assoc.
    eexists. split; [reflexivity|].
    cbn [app existsb isCaseRun orb].
    rewrite existsb_app, logFailureEvents_quiet by reflexivity.
    destruct (isFinalAttemptOf second ri && isParallelCI env); reflexivity.
  - split; [|eexists; split; reflexivity].
    unfold withTrace, withLogs, pageOpened.
    cbn [finalWorld trace logEntries currentTest armedTimers].
    rewrite <- !app_assoc.
    eexists. split; reflexivity.
Qed.

Lemma no_cases_checks_whole_log_witness :
  doNotFailOnWarning Sample.lenient = true /\
  FileFailed (runServerAndTests (Sample.env false false) false
                (Sample.during Sample.noCases)).
Proof.
  split; [reflexivity|].
  assert (Hd : declaredRun Sample.noCases Sample.lenient
                 (Sample.loggingHook Sample.deprecation) Sample.quietHook)
    by (repeat split).
  exact (proj2 (@no_cases_checks_whole_log (Sample.env false false) false
                  (Sample.during Sample.noCases) _ _ _ _ _
                  eq_refl Hd eq_refl eq_refl eq_refl eq_refl)).
Defined.

(** ** The case loop, read on the trace *)

(** X9.  What the loop has done can be read off its result.  When it
    returns [true], every case was announced, run under its timer and
    followed by the after-each hook, in registration order, each with the
    flag [false], and nothing else happened.  When it returns [false],
    that holds of the cases before some case [c]; [c] was run the same
    way and then reported with [logFailure], as thrown or as detected in
    the log according to what was caught; and nothing was done for the
    cases behind [c]. *)
Theorem case_loop_trace env ri after final cases : forall w b w',
  runTestsLoop env ri after final cases w = Done b w' ->
  let ms := testFunctionTimeout ri in
  if b then
    trace w' = trace w ++ flat_map (fun c => caseEvents ms c false) cases
  else
    exists pre c post err,
      cases = pre ++ c :: post /\
      trace w' =
        trace w ++ flat_map (fun c => caseEvents ms c false) pre
          ++ caseEvents ms c (truthy err)
          ++ logFailureEvents err (caseFailureReason ri c err) final.
Proof.
  induction cases as [|c rest IH]; intros w b w' H; cbv zeta.
  - simpl in H. inversion H; subst. simpl. rewrite app_nil_r. reflexivity.
  - cbn [runTestsLoop] in H. unfold bind in H.
    rewrite runCase_eq in H. cbv zeta in H.
    set (ran := testFn c (logEntries w ++ [caseMarker c])) in *.
    set (err := caught env (testFunctionTimeout ri) (snd ran)) in *.
    destruct (snd (after (truthy err) (fst ran))); [discriminate|].
    destruct (truthy err) eqn:Ht.
    + inversion H; subst. exists [], c, rest, err.
      split; [reflexivity|]. cbn [trace flat_map app].
      unfold caseFailureReason, logFailureEvents. rewrite !Ht.
      rewrite <- app_assoc. reflexivity.
    + destruct (hasFailEntries (negb (doNotFailOnWarning ri))
                  (fst (after false (fst ran)))).
      * inversion H; subst. exists [], c, rest, err.
        split; [reflexivity|]. cbn [trace flat_map app].
        unfold caseFailureReason, logFailureEvents. rewrite !Ht.
        rewrite <- app_assoc. reflexivity.
      * specialize (IH _ _ _ H). cbv zeta in IH. cbn [trace] in IH.
        destruct b.
        -- rewrite IH. cbn [flat_map]. rewrite <- !app_assoc. reflexivity.
        -- destruct IH as [pre [c' [post [err' [Hc Htr]]]]].
           exists (c :: pre), c', post, err'. split; [rewrite Hc; reflexivity|].
           rewrite Htr. cbn [flat_map]. rewrite <- !app_assoc. reflexivity.
Qed.

Lemma case_loop_trace_witness :
  exists w',
    runTestsLoop (Sample.env false false) Sample.strict Sample.quietAfter true
      [Sample.passingCase "one"; Sample.throwingCase "two" Sample.boom;
       Sample.passingCase "three"] initialWorld = Done false w' /\
    progressLines (trace w') = ["[test] one"; "[test] two"].
Proof.
  assert (H : runTestsLoop (Sample.env false false) Sample.strict
                Sample.quietAfter true
                [Sample.passingCase "one"; Sample.throwingCase "two" Sample.boom;
                 Sample.passingCase "three"] initialWorld
              = Done false
                  (finalWorld
                     (runTestsLoop (Sample.env false false) Sample.strict
                        Sample.quietAfter true
                        [Sample.passingCase "one";
                         Sample.throwingCase "two" Sample.boom;
                         Sample.passingCase "three"] initialWorld)))
    by (vm_compute; reflexivity).
  pose proof (@case_loop_trace _ _ _ _ _ _ _ _ H) as Ht.
  eexists. split; [exact H|]. vm_compute. reflexivity.
Defined.

(** ** Timers *)

(** X10.  As long as no body of a file throws from its call, the loop
    leaves no timer behind: however it ends (all cases pass, one rejects
    or times out, the after-each hook throws), the timers armed
    afterwards are those armed before. *)
Theorem returning_bodies_leave_no_timer env ri after final cases :
  (forall c, In c cases -> returnsAlways c) ->
  forall w,
    armedTimers (finalWorld (runTestsLoop env ri after final cases w))
    = armedTimers w.
Proof.
  induction cases as [|c rest IH]; intros Hret w; [reflexivity|].
  cbn [runTestsLoop]. unfold bind. rewrite runCase_eq. cbv zeta.
  destruct (Hret c (or_introl eq_refl) (logEntries w ++ [caseMarker c]))
    as [l' [a Hfn]].
  rewrite Hfn. cbn [fst snd timersAfter].
  destruct (snd (after _ l')); [reflexivity|].
  destruct (truthy _); [reflexivity|].
  destruct (hasFailEntries _ _); [reflexivity|].
  rewrite IH; [reflexivity|].
  intros c' Hin. apply Hret. right. exact Hin.
Qed.

Lemma returning_bodies_leave_no_timer_witness :
  armedTimers
    (finalWorld
       (runTestsLoop (Sample.env false false) Sample.strict Sample.quietAfter
          true [Sample.passingCase "one"; Sample.hangingCase "two"]
          initialWorld)) = [].
Proof.
  apply (@returning_bodies_leave_no_timer (Sample.env false false)
           Sample.strict Sample.quietAfter true
           [Sample.passingCase "one"; Sample.hangingCase "two"]).
  intros c [<-|[<-|[]]] l; eexists; eexists; reflexivity.
Defined.

(** ** The verdict on a case, once more *)

(** X11.  When what a case throws is truthy and the after-each hook
    returns, the iteration returns [false] exactly when the case threw
    (its call raised, its value was rejected, or the timer elapsed
    first) or the log, as the after-each hook left it, holds an error, or
    a warning unless the file set [doNotFailOnWarning].  The after-each
    hook is told whether the case threw, and what it logs counts. *)
Theorem case_fails_iff env ri after final c w :
  let ms := testFunctionTimeout ri in
  let ran := testFn c (logEntries w ++ [caseMarker c]) in
  let threw := caseThrew env ms (snd ran) in
  let hooked := after threw (fst ran) in
  throwsTruthy (snd ran) = true ->
  snd hooked = None ->
  exists b w',
    runCase env ri after final c w = Done b w' /\
    (b = false <->
     threw = true \/
     hasFailEntries (negb (doNotFailOnWarning ri)) (fst hooked) = true) /\
    existsb isLogFail (skipn (List.length (trace w)) (trace w')) = negb b.
Proof.
  intros ms ran threw hooked Ht Hq.
  pose proof (runCase_eq env ri after final c w) as E. cbv zeta in E.
  fold ms ran in E. rewrite (caught_truthy env ms _ Ht) in E.
  fold threw hooked in E. rewrite Hq in E.
  assert (Hskip : forall (a b : list Event),
             skipn (List.length a) (a ++ b) = b).
  { intros a b. induction a; simpl; auto. }
  destruct threw.
  - do 2 eexists. split; [exact E|]. split; [tauto|].
    cbn [trace]. rewrite <- app_assoc, Hskip. reflexivity.
  - destruct (hasFailEntries (negb (doNotFailOnWarning ri)) (fst hooked)).
    + do 2 eexists. split; [exact E|]. split; [tauto|].
      cbn [trace]. rewrite <- app_assoc, Hskip. reflexivity.
    + do 2 eexists. split; [exact E|]. split.
      * split; [discriminate | intros [H|H]; discriminate].
      * cbn [trace]. rewrite Hskip. reflexivity.
Qed.

Lemma case_fails_iff_witness :
  exists w',
    runCase (Sample.env false false) Sample.lenient
      (fun _ => Sample.loggingHook Sample.bootError) true
      (Sample.passingCase "one") initialWorld = Done false w'.
Proof.
  destruct (@case_fails_iff (Sample.env false false) Sample.lenient
              (fun _ => Sample.loggingHook Sample.bootError) true
              (Sample.passingCase "one") initialWorld eq_refl eq_refl)
    as [b [w' [Hr [Hb _]]]].
  assert (b = false) as -> by (apply Hb; right; reflexivity).
  exists w'. exact Hr.
Defined.

(** X12.  A case whose value does not settle before the timer elapses
    fails with the timeout error: the iteration reports it as thrown,
    logs that error, returns [false] and leaves no timer armed, and what
    the body does after the timer has elapsed makes no difference.  The
    failure report has drained the log: what the body and the after-each
    hook logged is no longer in the buffer. *)
Theorem timed_out_case_fails env ri after final c w l1 a :
  testFn c (logEntries w ++ [caseMarker c]) = (l1, Returns a) ->
  timesOut a = true ->
  snd (after true l1) = None ->
  let ms := testFunctionTimeout ri in
  let timeout := timeoutError (humanizeTime env ms) in
  runCase env ri after final c w =
  Done false
    (mkWorld [] (currentTest w) (armedTimers w)
       (trace w ++ caseEvents ms c true
          ++ [EvLogFail (threwReason (testDesc c)) final; EvLogError timeout;
              EvLogErrorsAndWarnings; EvFlushLogs])).
Proof.
  intros Hfn Ha Hq ms timeout.
  rewrite runCase_eq. cbv zeta. rewrite Hfn. cbn [fst snd caught timersAfter].
  rewrite runRace_promise.
  destruct a as [s|s|]; [discriminate| |];
    cbn [truthy timeoutError]; rewrite Hq; cbn [truthy];
    rewrite <- app_assoc; reflexivity.
Qed.

Lemma timed_out_case_fails_witness :
  runTestsLoop (Sample.env false false) Sample.strict Sample.quietAfter false
    [Sample.hangingCase "slow"; Sample.passingCase "next"] initialWorld
  = Done false
      (mkWorld [] None []
         (caseEvents 5000 (Sample.hangingCase "slow") true
            ++ [EvLogFail (threwReason "slow") false;
                EvLogError (timeoutError "5 seconds");
                EvLogErrorsAndWarnings; EvFlushLogs])).
Proof.
  cbn [runTestsLoop]. unfold bind.
  rewrite (@timed_out_case_fails (Sample.env false false) Sample.strict
             Sample.quietAfter false (Sample.hangingCase "slow") initialWorld
             _ NeverSettles eq_refl eq_refl eq_refl).
  reflexivity.
Defined.

(** ** The retry bound *)

Lemma count_stillFailing f files : forall oks,
  count_occ string_dec (stillFailing files oks) f
  <= count_occ string_dec files f.
Proof.
  induction files as [|g files IH]; intros oks; [simpl; lia|].
  destruct oks as [|ok oks]; [simpl; lia|].
  specialize (IH oks). cbn [stillFailing].
  destruct ok; cbn [count_occ]; destruct (string_dec g f); lia.
Qed.

(** X13.  In a run of the scheduler that returns, every discovered file
    was handed to the build step at least once and at most twice for each
    time it was discovered, and exactly once outside CI; and the files
    returned as failing are among the discovered ones, no more often than
    they were discovered. *)
Theorem attempted_once_or_twice env files w failed w' f :
  runTestFiles env files w = Done failed w' ->
  let n := count_occ string_dec files f in
  timesBuilt f (trace w) + n <= timesBuilt f (trace w') /\
  timesBuilt f (trace w') <= timesBuilt f (trace w) + 2 * n /\
  (isCI env = false -> timesBuilt f (trace w') = timesBuilt f (trace w) + n) /\
  count_occ string_dec failed f <= n.
Proof.
  intros H n. unfold timesBuilt.
  rewrite runTestFiles_twoPasses in H. unfold twoPasses in H.
  unfold bind at 1 in H.
  destruct (attemptInOrder env false files w) as [oks1 w1| | |] eqn:E1;
    try discriminate.
  destruct (attemptInOrder_builds _ _ _ _ E1) as [Hb1 _].
  pose proof (count_stillFailing f files oks1) as Hc1. fold n in Hc1.
  destruct (isCI env).
  - unfold bind in H.
    destruct (attemptInOrder env true (stillFailing files oks1) w1)
      as [oks2 w2| | |] eqn:E2; try discriminate.
    inversion H; subst.
    destruct (attemptInOrder_builds _ _ _ _ E2) as [Hb2 _].
    pose proof (count_stillFailing f (stillFailing files oks1) oks2) as Hc2.
    rewrite Hb2, Hb1, !count_occ_app. fold n.
    repeat split; try lia; try discriminate.
  - inversion H; subst. rewrite Hb1, count_occ_app. fold n.
    repeat split; try lia; intros; lia.
Qed.

Lemma attempted_once_or_twice_witness :
  timesBuilt "flaky.ts"
    (trace (finalWorld
              (runTestFiles (Sample.env true false) ["pass.ts"; "flaky.ts"]
                 initialWorld))) <= 2.
Proof.
  assert (H : runTestFiles (Sample.env true false) ["pass.ts"; "flaky.ts"]
                initialWorld
              = Done [] (finalWorld
                           (runTestFiles (Sample.env true false)
                              ["pass.ts"; "flaky.ts"] initialWorld)))
    by (vm_compute; reflexivity).
  exact (proj1 (proj2 (@attempted_once_or_twice (Sample.env true false)
                         ["pass.ts"; "flaky.ts"] initialWorld [] _
                         "flaky.ts" H))).
Defined.

(** ** The finality flag of logged failures *)

Lemma Emits_callHook_any (Q : Event -> bool) ev h :
  Q ev = true -> Emits Q (callHook ev h).
Proof. intros H. unfold callHook, getLogs. emits. Qed.

Section FinalityFlag.

Variable env : Env.
Variable final : bool.

Lemma flag_runTest fn ms : Emits (carriesFlag final) (runTest env fn ms).
Proof. unfold runTest, getLogs. emits. Qed.

Lemma flag_logFailure err why :
  Emits (carriesFlag final) (logFailure err why final).
Proof.
  unfold logFailure, Logs.logErrorsAndWarnings, Logs.flushLogs.
  emits. apply eqb_reflx.
Qed.

Lemma flag_abortMaybe b : Emits (carriesFlag final) (abortMaybe env b).
Proof. unfold abortMaybe. emits. Qed.

Lemma flag_runCase ri after c :
  Emits (carriesFlag final) (runCase env ri after final c).
Proof.
  unfold runCase, Logs.hasFailLogs, Logs.clearLogs.
  repeat first
    [ apply flag_runTest | apply flag_logFailure
    | apply Emits_callHook_any; reflexivity
    | emits_step ]; reflexivity.
Qed.

Lemma flag_runTestsLoop ri after cases :
  Emits (carriesFlag final) (runTestsLoop env ri after final cases).
Proof.
  induction cases as [|c rest IH]; cbn [runTestsLoop].
  - apply Emits_ret.
  - apply Emits_bind; [apply flag_runCase|].
    intros [|]; [exact IH | apply Emits_ret].
Qed.

Lemma flag_runTests t : Emits (carriesFlag final) (runTests env t final).
Proof.
  unfold runTests.
  repeat first [ apply flag_runTestsLoop | emits_step ].
Qed.

Lemma flag_terminateAndReport stop ok :
  Emits (carriesFlag final) (terminateAndReport env stop final ok).
Proof.
  unfold terminateAndReport, pageClose, Logs.hasFailLogs, Logs.clearLogs, logPass.
  repeat first
    [ apply flag_logFailure | apply flag_abortMaybe
    | apply Emits_callHook_any; reflexivity
    | emits_step ]; reflexivity.
Qed.

Lemma flag_startServerFailed err :
  Emits (carriesFlag final) (startServerFailed env err final).
Proof.
  unfold startServerFailed.
  repeat first [ apply flag_logFailure | apply flag_abortMaybe | emits_step ].
Qed.

End FinalityFlag.

(** X14.  Every failure logged while a file that called [run()] is
    attempted carries the finality flag of that attempt,
    [isSecondAttempt || !isFlaky], whichever step logged it: the start of
    the server, a case, or the check after the stop hook.  In pass 2
    every failure is logged as final; in pass 1 those of flaky files are
    not. *)
Theorem failures_carry_attempt_flag env second w t ri start stop :
  currentTest w = Some t ->
  declaredRun t ri start stop ->
  exists evs,
    trace (finalWorld (runServerAndTests env second w)) = trace w ++ evs /\
    loggedAs (second || negb (isFlaky ri)) evs = true.
Proof.
  intros Hc Hd.
  rewrite (runServerAndTests_running env second w Hc Hd). cbv zeta.
  change (second || negb (isFlaky ri)) with (isFinalAttemptOf second ri).
  set (final := isFinalAttemptOf second ri).
  rewrite callHook_eq. cbv zeta.
  set (w1 := mkWorld _ _ _ _).
  assert (Hw1 : trace w1 = trace w ++ [EvNewPage; EvStartServer])
    by (unfold w1, pageOpened; cbn [trace]; rewrite <- app_assoc; reflexivity).
  destruct (snd (start (logEntries (pageOpened t w)))) as [err|].
  - destruct (flag_startServerFailed env final err w1) as [evs [Ht Hq]].
    exists ([EvNewPage; EvStartServer] ++ evs). split.
    + rewrite Ht, Hw1, <- app_assoc. reflexivity.
    + unfold loggedAs. rewrite forallb_app, Hq. reflexivity.
  - assert (Hm : Emits (carriesFlag final)
                   (success <- runTests env (setPage t ThePage) final ;;
                    terminateAndReport env stop final success))
      by (apply Emits_bind;
          [apply flag_runTests | intros ok; apply flag_terminateAndReport]).
    destruct (Hm w1) as [evs [Ht Hq]].
    exists ([EvNewPage; EvStartServer] ++ evs). split.
    + rewrite Ht, Hw1, <- app_assoc. reflexivity.
    + unfold loggedAs. rewrite forallb_app, Hq. reflexivity.
Qed.

Lemma failures_carry_attempt_flag_witness :
  exists evs,
    trace (finalWorld
             (runServerAndTests (Sample.env false false) true
                (Sample.during Sample.throwsThenWarns))) = evs /\
    loggedAs true evs = true /\ existsb isLogFail evs = true.
Proof.
  assert (Hd : declaredRun Sample.throwsThenWarns Sample.lenient
                 Sample.quietHook (Sample.loggingHook Sample.deprecation))
    by (repeat split).
  destruct (@failures_carry_attempt_flag (Sample.env false false) true
              (Sample.during Sample.throwsThenWarns) _ _ _ _ eq_refl Hd)
    as [evs [Ht Hq]].
  exists evs. split; [exact Ht|]. split; [exact Hq|].
  simpl in Ht. rewrite <- Ht. vm_compute. reflexivity.
Defined.

(** ** [buildAndTest]: skipped files and the current test *)

Lemma prepare_at env f w :
  prepare env f w =
  let js := replace ".ts" ".mjs" f in
  let m := importModule env js (traceAtImport f w) in
  if endsWith f ".ts" && endsWith js ".mjs" then
    let w1 := mkWorld (logEntries w) (Some (declares m (freshTestInfo f)))
                      (armedTimers w) (trace w ++ importEvents f) in
    match importError m with
    | Some e => Threw e w1
    | None => Done tt w1
    end
  else Threw (JsErr InvariantError "[Bug] assertion failed") w.
Proof.
  unfold prepare, assert, traceAtImport, importEvents. cbv zeta.
  destruct (endsWith f ".ts"); [|reflexivity].
  destruct (endsWith (replace ".ts" ".mjs" f) ".mjs"); [|reflexivity].
  unfold bind, ret, buildTs, setCurrentTest, bind, emit, setCurrent,
    tryFinally, importFile, bind, emit, cleanBuild. simpl.
  rewrite <- !app_assoc. simpl.
  destruct (importError _); simpl; rewrite <- !app_assoc; reflexivity.
Qed.

(** X15.  A file whose module only calls [skip()] goes through the build,
    the import and the removal of the build, has its reason logged as a
    warning and returns [true] with the current test emptied; no page is
    opened, the log and the timers are left alone.  It is therefore never
    pushed to the list of failed files: the loop goes on with the list it
    had. *)
Theorem skipped_file_passes env f second w s :
  endsWith f ".ts" = true ->
  endsWith (replace ".ts" ".mjs" f) ".mjs" = true ->
  let m := importModule env (replace ".ts" ".mjs" f) (traceAtImport f w) in
  let t := declares m (freshTestInfo f) in
  importError m = None ->
  skipped t = Some s ->
  runInfo t = None ->
  tests t = None ->
  let w' := mkWorld (logEntries w) None (armedTimers w)
              (trace w ++ importEvents f
                 ++ [EvLogWarn (reason s); EvSetCurrentTest None]) in
  buildAndTest env f second w = Done true w' /\
  forall rest acc,
    attemptEach env second (f :: rest) acc w = attemptEach env second rest acc w'.
Proof.
  intros H1 H2 m t Hi Hs Hr Ht w'.
  assert (E : buildAndTest env f second w = Done true w').
  { rewrite buildAndTest_prepare. unfold bind at 1. rewrite prepare_at.
    cbv zeta. rewrite H1, H2. cbn [andb]. fold m. rewrite Hi. fold t.
    unfold bind at 1.
    match goal with
    | |- context [runServerAndTests env second ?w1] =>
        rewrite (@runServerAndTests_skipped env second w1 t s eq_refl Hs)
    end.
    rewrite Hr, Ht. cbn [isDefined].
    unfold bind, setCurrentTest, bind, emit, setCurrent, ret, withTrace, w'.
    cbn [logEntries currentTest armedTimers trace option_map].
    rewrite <- !app_assoc. reflexivity. }
  split; [exact E|].
  intros rest acc. cbn [attemptEach]. unfold bind. rewrite E. reflexivity.
Qed.

Lemma skipped_file_passes_witness :
  runTestFiles (Sample.env true false) ["skip.ts"] initialWorld
  = Done []
      (mkWorld [] None []
         (importEvents "skip.ts"
            ++ [EvLogWarn "not on this platform"; EvSetCurrentTest None])).
Proof.
  destruct (@skipped_file_passes (Sample.env true false) "skip.ts" false
              initialWorld (mkSkipInfo "not on this platform")
              eq_refl eq_refl eq_refl eq_refl eq_refl eq_refl)
    as [_ Ha].
  unfold runTestFiles. unfold bind at 1. rewrite Ha. reflexivity.
Defined.

(** X16.  Whenever an attempt returns, with pass or with fail, the
    current test has been emptied, and emptying it was the last thing
    done. *)
Theorem attempt_empties_current_test env f second w b w' :
  buildAndTest env f second w = Done b w' ->
  currentTest w' = None /\
  exists tr, trace w' = tr ++ [EvSetCurrentTest None].
Proof.
  rewrite buildAndTest_prepare. unfold bind at 1.
  destruct (prepare env f w) as [[] w1| | |]; try discriminate.
  unfold bind at 1.
  destruct (runServerAndTests env second w1) as [ok w2| | |];
    try discriminate.
  unfold bind, setCurrentTest, bind, emit, setCurrent, ret.
  cbn [logEntries currentTest armedTimers trace option_map].
  intros H. inversion H; subst. split; [reflexivity|].
  eexists. reflexivity.
Qed.

Lemma attempt_empties_current_test_witness :
  currentTest
    (finalWorld
       (buildAndTest (Sample.env false false) "nostart.ts" false
          (withCurrent initialWorld (Some Sample.allPass)))) = None.
Proof.
  assert (H : buildAndTest (Sample.env false false) "nostart.ts" false
                (withCurrent initialWorld (Some Sample.allPass))
              = Done false
                  (finalWorld
                     (buildAndTest (Sample.env false false) "nostart.ts" false
                        (withCurrent initialWorld (Some Sample.allPass)))))
    by (vm_compute; reflexivity).
  exact (proj1 (attempt_empties_current_test _ _ _ _ H)).
Defined.

(** ** What the case loop calls, and when a pass is logged *)

Lemma loop_runTest env fn ms : Emits caseLoopEvent (runTest env fn ms).
Proof. unfold runTest, getLogs. emits. Qed.

Lemma loop_logFailure err why final :
  Emits caseLoopEvent (logFailure err why final).
Proof. unfold logFailure, Logs.logErrorsAndWarnings, Logs.flushLogs. emits. Qed.

Lemma loop_runCase env ri after final c :
  Emits caseLoopEvent (runCase env ri after final c).
Proof.
  unfold runCase, Logs.hasFailLogs, Logs.clearLogs.
  repeat first
    [ apply loop_runTest | apply loop_logFailure
    | apply Emits_callHook_any; reflexivity
    | emits_step ]; reflexivity.
Qed.

Lemma loop_runTestsLoop env ri after final cases :
  Emits caseLoopEvent (runTestsLoop env ri after final cases).
Proof.
  induction cases as [|c rest IH]; cbn [runTestsLoop].
  - apply Emits_ret.
  - apply Emits_bind; [apply loop_runCase|].
    intros [|]; [exact IH | apply Emits_ret].
Qed.

Lemma runTestsLoop_returns_or_throws env ri after final cases : forall w,
  match runTestsLoop env ri after final cases w with
  | Done _ _ | Threw _ _ => True
  | Exited _ _ | Hangs _ => False
  end.
Proof.
  induction cases as [|c rest IH]; intros w; [exact I|].
  cbn [runTestsLoop]. unfold bind. rewrite runCase_eq. cbv zeta.
  destruct (snd (after _ _)); [exact I|].
  destruct (truthy _); [exact I|].
  destruct (hasFailEntries _ _); [exact I|]. apply IH.
Qed.

Lemma loop_runTests env t final : Emits caseLoopEvent (runTests env t final).
Proof.
  unfold runTests. repeat first [ apply loop_runTestsLoop | emits_step ].
Qed.

Lemma runTests_returns_or_throws env t final w :
  match runTests env t final w with
  | Done _ _ | Threw _ _ => True
  | Exited _ _ | Hangs _ => False
  end.
Proof.
  unfold runTests, bind, assertDefined.
  destruct (runInfo t) as [ri|]; [|exact I].
  destruct (afterEach t) as [after|]; [|exact I].
  destruct (tests t) as [cases|]; [|exact I].
  apply runTestsLoop_returns_or_throws.
Qed.

(** X17.  Whatever the cases and the after-each hook do, [runTests] calls
    nothing but the progress logger, [setTimeout], the case bodies, the
    after-each hook and the reporters of [logFailure]: it never opens or
    closes a page, never calls the server hooks, never logs a pass, and
    never ends the process.  It either returns or throws. *)
Theorem runTests_footprint env t final w :
  (exists evs,
     trace (finalWorld (runTests env t final w)) = trace w ++ evs /\
     forallb caseLoopEvent evs = true) /\
  match runTests env t final w with
  | Done _ _ | Threw _ _ => True
  | Exited _ _ | Hangs _ => False
  end.
Proof.
  split.
  - apply loop_runTests.
  - apply runTests_returns_or_throws.
Qed.

Lemma no_pass_in_loop evs :
  forallb caseLoopEvent evs = true -> filter isLogPass evs = [].
Proof.
  induction evs as [|e evs IH]; [reflexivity|]. simpl. intros H.
  apply andb_prop in H. destruct H as [He Hr].
  destruct e; simpl in *; try discriminate; auto.
Qed.

Lemma no_pass_in_logFailure err why final :
  filter isLogPass (logFailureEvents err why final) = [].
Proof. unfold logFailureEvents. destruct (truthy err); reflexivity. Qed.

(** X18.  For a file that called [run()], a pass is logged exactly when
    the attempt returns [true], and then once; an attempt that returns
    [false], ends the process or throws has logged none. *)
Theorem pass_logged_iff_passed env second w t ri start stop :
  currentTest w = Some t ->
  declaredRun t ri start stop ->
  let o := runServerAndTests env second w in
  exists evs,
    trace (finalWorld o) = trace w ++ evs /\
    timesPassLogged evs =
    match o with
    | Done true _ => 1
    | _ => 0
    end.
Proof.
  intros Hc Hd o. unfold o, timesPassLogged.
  rewrite (runServerAndTests_running env second w Hc Hd). cbv zeta.
  set (final := isFinalAttemptOf second ri).
  rewrite callHook_eq. cbv zeta.
  set (w1 := mkWorld _ _ _ _).
  assert (Hw1 : trace w1 = trace w ++ [EvNewPage; EvStartServer])
    by (unfold w1, pageOpened; cbn [trace]; rewrite <- app_assoc; reflexivity).
  destruct (snd (start (logEntries (pageOpened t w)))) as [err|].
  - rewrite startServerFailed_eq. cbv zeta. unfold failedOutcome.
    destruct (final && isParallelCI env);
      cbn [finalWorld withTrace withLogs trace]; rewrite Hw1, <- !app_assoc;
      eexists; (split; [reflexivity|]);
      rewrite !filter_app, no_pass_in_logFailure; reflexivity.
  - unfold bind.
    destruct (loop_runTests env (setPage t ThePage) final w1)
      as [evs1 [Ht1 Hq1]].
    pose proof (runTests_returns_or_throws env (setPage t ThePage) final w1)
      as Hk.
    apply no_pass_in_loop in Hq1.
    destruct (runTests env (setPage t ThePage) final w1)
      as [ok w2|e w2|k w2|w2]; cbn [finalWorld] in Ht1.
    + rewrite terminateAndReport_eq. cbv zeta.
      destruct (snd (stop (logEntries w2))).
      * cbn [finalWorld withTrace withLogs trace].
        rewrite Ht1, Hw1, <- !app_assoc. eexists. split; [reflexivity|].
        rewrite !filter_app, Hq1. reflexivity.
      * unfold failedOutcome.
        destruct ok;
          [destruct (hasFailEntries true (fst (stop (logEntries w2)))
                     && negb (isWindows env))|];
          try destruct (final && isParallelCI env);
          cbn [finalWorld withTrace withLogs trace];
          rewrite Ht1, Hw1, <- !app_assoc;
          eexists; (split; [reflexivity|]);
          rewrite !filter_app, ?no_pass_in_logFailure, Hq1; reflexivity.
    + cbn [finalWorld]. rewrite Ht1, Hw1, <- !app_assoc.
      eexists. split; [reflexivity|]. rewrite !filter_app, Hq1. reflexivity.
    + destruct Hk.
    + destruct Hk.
Qed.

Lemma pass_logged_iff_passed_witness :
  exists evs,
    trace (finalWorld
             (runServerAndTests (Sample.env false false) false
                (Sample.during Sample.allPass))) = evs /\
    timesPassLogged evs = 1.
Proof.
  assert (Hd : declaredRun Sample.allPass Sample.strict Sample.quietHook
                 Sample.quietHook)
    by (repeat split).
  destruct (@pass_logged_iff_passed (Sample.env false false) false
              (Sample.during Sample.allPass) _ _ _ _ eq_refl Hd)
    as [evs [Ht Hn]].
  exists evs. split; [exact Ht|].
  rewrite Hn. vm_compute. reflexivity.
Defined.
